(** * Transaction normalisation of bitcoin-mempool-app

    A shallow embedding of the two API routes

      - [src/app/api/get-bitcoin-node/route.ts]  (module [BitcoinNode])
      - [src/app/api/get-mempool-txs/route.ts]   (module [MempoolTxs])

    Both routes fetch a payload from a Bitcoin node (JSON-RPC) or from an
    Esplora-style explorer and reduce it to one [TransactionResponse].  The
    network is outside the embedding: every route is a function of the
    replies it awaited.  The outer catch of the routes is module [Caught],
    the limit of the listing module [RecentNode], and the history the page
    keeps of what the routes answered module [Home].

    Numeric model.  A JavaScript [number] read from a payload is an exact
    rational ([Q]); the rounding of IEEE-754 doubles, NaN and the infinities
    are not represented, and an absent or non-numeric field is [None].
    Tallies the code computes from lengths are integers ([Z]).
    Strings are sequences of 8-bit characters; the text a [Buffer] decodes
    to is a sequence of UTF-16 code units. *)

From Stdlib Require Import ZArith QArith Qround Qminmax String Ascii List Lia Lqa Bool.
From Stdlib Require Import Decimal DecimalString DecimalNat.
From stdpp Require Import base option list strings gmap.
Import ListNotations.

Open Scope Z_scope.

(** ** JavaScript primitives used by the routes *)

Module Js.

Definition number := Q.

(** Truthiness of a number: everything but zero. *)
Definition truthy (x : number) : bool := negb (Qeq_bool x 0).

(** [x || 0] on a possibly absent number. *)
Definition or0 (x : option number) : number :=
  match x with
  | Some v => if truthy v then v else 0%Q
  | None => 0%Q
  end.

(** [s || undefined] on a possibly absent string: the empty string is
    falsy. *)
Definition orUndefined (s : option string) : option string :=
  match s with
  | Some EmptyString => None
  | other => other
  end.

(** [a || b] on possibly absent strings. *)
Definition orElse (a b : option string) : option string :=
  match orUndefined a with
  | Some s => Some s
  | None => b
  end.

(** Truthiness of a possibly absent string. *)
Definition truthyStr (s : option string) : bool := bool_decide (is_Some (orUndefined s)).

(** [Number(x.toFixed(0))]: the nearest integer, a tie going away from
    zero ([toFixed] prints digits below 1e21, which covers every amount
    of coin). *)
Definition toFixed0 (x : number) : Z :=
  if Qle_bool 0 x then Qfloor (x + (1 # 2))%Q
  else - Qfloor (- x + (1 # 2))%Q.

(** [x > y] *)
Definition gt (x y : number) : bool := negb (Qle_bool x y).

(** [Math.ceil]. *)
Definition Math_ceil (x : number) : Z := Qceiling x.

(** [Array.prototype.reduce] with an initial value. *)
Definition reduce {A B} (f : B -> A -> B) (init : B) (l : list A) : B :=
  fold_left f l init.

(** [String.prototype.split] on a one-character separator.  The result
    is never empty: a string without the separator is its only part. *)
Fixpoint split (sep : ascii) (s : string) : list string :=
  match s with
  | EmptyString => [EmptyString]
  | String c rest =>
      if Ascii.eqb c sep then EmptyString :: split sep rest
      else match split sep rest with
           | part :: parts => String c part :: parts
           | [] => [String c EmptyString]
           end
  end.

(** [Array.prototype.join('')]. *)
Definition join (parts : list string) : string :=
  fold_right String.append EmptyString parts.

(** [Array.prototype.includes] on strings. *)
Definition includes (l : list string) (x : string) : bool :=
  existsb (String.eqb x) l.

(** [Array.from(new Set(l))]: a [Set] keeps the first occurrence of every
    element, in insertion order. *)
Fixpoint dedupe {A} `{EqDecision A} (l : list A) : list A :=
  match l with
  | [] => []
  | x :: rest => x :: List.filter (fun y => negb (bool_decide (y = x))) (dedupe rest)
  end.

(** [.filter(t => t !== undefined)]. *)
Definition defined {A} (l : list (option A)) : list A := omap id l.

End Js.

(** ** Node's [Buffer]: hex decoding and UTF-8 text *)

Module Buffer.

Definition unhex (c : ascii) : option Z :=
  let n := Z.of_N (N_of_ascii c) in
  if (48 <=? n) && (n <=? 57) then Some (n - 48)
  else if (97 <=? n) && (n <=? 102) then Some (n - 87)
  else if (65 <=? n) && (n <=? 70) then Some (n - 55)
  else None.

(** [Buffer.from(s, 'hex')].  Node decodes pairs of hex digits and stops
    at the first pair that is not one, or at a trailing single digit: the
    data is truncated and nothing is thrown. *)
Fixpoint hexDecode (s : string) : list Z :=
  match s with
  | String a (String b rest) =>
      match unhex a, unhex b with
      | Some hi, Some lo => (hi * 16 + lo) :: hexDecode rest
      | _, _ => []
      end
  | _ => []
  end.

(** The outcome of a call that may throw. *)
Inductive attempt (A : Type) : Type :=
| Returned (a : A)
| Thrown.
Arguments Returned {A} a.
Arguments Thrown {A}.

Definition from_hex (s : string) : attempt (list Z) := Returned (hexDecode s).

(** State of the UTF-8 decoder between two bytes. *)
Record utf8_state := {
  needed : nat;       (* continuation bytes still expected *)
  code_point : Z;
  lower : Z;          (* range allowed for the next byte *)
  upper : Z
}.

Definition utf8_idle : utf8_state :=
  {| needed := 0; code_point := 0; lower := 128; upper := 191 |}.

Definition replacement : Z := 65533.

(** UTF-16 code units of a code point. *)
Definition units (cp : Z) : list Z :=
  if cp <? 65536 then [cp]
  else [55296 + Z.shiftr (cp - 65536) 10; 56320 + Z.land (cp - 65536) 1023].

(** A byte met while no sequence is open. *)
Definition utf8_lead (b : Z) : list Z * utf8_state :=
  if b <=? 127 then ([b], utf8_idle)
  else if (194 <=? b) && (b <=? 223) then
    ([], {| needed := 1; code_point := Z.land b 31; lower := 128; upper := 191 |})
  else if (224 <=? b) && (b <=? 239) then
    ([], {| needed := 2; code_point := Z.land b 15;
            lower := if b =? 224 then 160 else 128;
            upper := if b =? 237 then 159 else 191 |})
  else if (240 <=? b) && (b <=? 244) then
    ([], {| needed := 3; code_point := Z.land b 7;
            lower := if b =? 240 then 144 else 128;
            upper := if b =? 244 then 143 else 191 |})
  else ([replacement], utf8_idle).

Definition utf8_step (st : utf8_state) (b : Z) : list Z * utf8_state :=
  match needed st with
  | O => utf8_lead b
  | S n =>
      if (lower st <=? b) && (b <=? upper st) then
        let cp := Z.lor (Z.shiftl (code_point st) 6) (Z.land b 63) in
        match n with
        | O => (units cp, utf8_idle)
        | S _ => ([], {| needed := n; code_point := cp; lower := 128; upper := 191 |})
        end
      else
        (* the open sequence is ill-formed: one replacement character,
           and the byte is read again as a lead byte *)
        let '(out, st') := utf8_lead b in (replacement :: out, st')
  end.

Fixpoint utf8_run (st : utf8_state) (bytes : list Z) : list Z :=
  match bytes with
  | [] => match needed st with O => [] | S _ => [replacement] end
  | b :: rest => let '(out, st') := utf8_step st b in out ++ utf8_run st' rest
  end.

(** [buffer.toString('utf8')]: never fails, ill-formed input decodes to
    U+FFFD. *)
Definition toString_utf8 (bytes : list Z) : list Z := utf8_run utf8_idle bytes.

(** [.replace(/[^\x20-\x7E]/g, '')] *)
Definition printable (u : Z) : bool := (32 <=? u) && (u <=? 126).

Definition stripNonPrintable (text : list Z) : list Z := List.filter printable text.

Fixpoint string_of_units (text : list Z) : string :=
  match text with
  | [] => EmptyString
  | u :: rest => String (ascii_of_N (Z.to_N u)) (string_of_units rest)
  end.

End Buffer.

(** ** Payloads and records

    One module per TypeScript interface, so that fields keep their names.
    [RawInput], [RawOutput] and [RawTransaction] are the union of what the
    two route files declare; get-mempool-txs never reads the fields only
    get-bitcoin-node declares. *)

Module ScriptPubKey.
Record t := { address : option string; type : option string; asm : option string }.
End ScriptPubKey.

Module Prevout.
Record t := {
  scriptPubKey : option ScriptPubKey.t;
  scriptpubkey_address : option string;
  scriptpubkey_type : option string;
  value : option Js.number
}.
End Prevout.

Module RawInput.
Record t := {
  prevout : option Prevout.t;
  txinwitness : option (list string);
  witness : option (list string)
}.
End RawInput.

Module RawOutput.
Record t := {
  scriptPubKey : option ScriptPubKey.t;
  scriptpubkey_address : option string;
  scriptpubkey_type : option string;
  scriptpubkey_asm : option string;
  value : option Js.number
}.
End RawOutput.

Module Status.
Record t := {
  confirmed : bool;
  block_height : option Js.number;
  confirmations : option Js.number
}.
End Status.

Module RawTransaction.
Record t := {
  txid : string;
  fee : option Js.number;
  size : option Js.number;
  vin : list RawInput.t;
  vout : list RawOutput.t;
  confirmations : option Js.number;
  version : option Js.number;
  locktime : option Js.number;
  blockheight : option Js.number;
  status : option Status.t
}.
End RawTransaction.

(** [result] of [getmempoolentry], and an entry of [getrawmempool true]. *)
Module MempoolEntry.
Record t := { fee : option Js.number; vsize : option Js.number }.
End MempoolEntry.

(** [result] of [getmempoolinfo]. *)
Module MempoolInfo.
Record t := { size : option Js.number; bytes : option Js.number }.
End MempoolInfo.

(** Body of the explorer's [/api/mempool]. *)
Module ExplorerMempool.
Record t := {
  count : option Js.number;
  total_fee : option Js.number;
  vsize : option Js.number
}.
End ExplorerMempool.

Module TxInput.
Record t := { address : option string; amount : Js.number; scriptType : option string }.
End TxInput.

Module TxOutput.
Record t := {
  address : option string;
  amount : Js.number;
  scriptType : option string;
  opReturn : option string
}.
End TxOutput.

Module Witness.
Record t := { count : Z; size : Z }.
End Witness.

Module TransactionResponse.
Record t := {
  txid : string;
  fee : Js.number;
  size : Js.number;
  status : string;
  confirmations : Js.number;
  version : Js.number;
  locktime : Js.number;
  blockheight : option Js.number;
  walletType : string;
  witness : Witness.t;
  inputs : list TxInput.t;
  outputs : list TxOutput.t;
  source : string
}.
End TransactionResponse.

Module MempoolStats.
Record t := {
  count : Js.number;
  total_fee : Js.number;
  vsize : Js.number;
  source : string
}.
End MempoolStats.

(** ** The steps every path of both routes repeats *)

Module Normalize.

(** [Number((v * 1e8).toFixed(0))] *)
Definition toSatoshis (v : Js.number) : Js.number :=
  inject_Z (Js.toFixed0 (v * 100000000)%Q).

(** The OP_RETURN text of an output, from its script type and its
    disassembly:
<<
    if (type === 'nulldata' && asm) {
      const asmParts = asm.split(' ');
      if (asmParts[0] === 'OP_RETURN' && asmParts[1]) {
        try {
          const hex = asmParts[1];
          const buffer = Buffer.from(hex, 'hex');
          opReturn = buffer.toString('utf8').replace(/[^\x20-\x7E]/g, '') || hex;
        } catch { opReturn = asm; }
      }
    }
>> *)
Definition decodeOpReturn (type asm : option string) : option string :=
  if bool_decide (type = Some "nulldata"%string) && Js.truthyStr asm then
    let asm := default EmptyString asm in
    let asmParts := Js.split " "%char asm in
    if bool_decide (asmParts !! 0%nat = Some "OP_RETURN"%string)
       && Js.truthyStr (asmParts !! 1%nat) then
      let hex := default EmptyString (asmParts !! 1%nat) in
      match Buffer.from_hex hex with
      | Buffer.Returned buffer =>
          let text :=
            Buffer.string_of_units
              (Buffer.stripNonPrintable (Buffer.toString_utf8 buffer)) in
          Js.orElse (Some text) (Some hex)
      | Buffer.Thrown => Some asm
      end
    else None
  else None.

(** [stack?.length || 0] *)
Definition stackLength (stack : option (list string)) : Z :=
  match stack with
  | Some items => Z.of_nat (List.length items)
  | None => 0
  end.

(** The two reductions over [vin]; [stackOf] is the field the path
    reads the witness stack from. *)
Definition witnessCount (stackOf : RawInput.t -> option (list string))
    (vin : list RawInput.t) : Z :=
  Js.reduce (fun sum input => sum + stackLength (stackOf input)) 0 vin.

Definition witnessSize (stackOf : RawInput.t -> option (list string))
    (vin : list RawInput.t) : Z :=
  Js.reduce
    (fun sum input =>
       match stackOf input with
       | Some stack =>
           let hex := Js.join stack in
           sum + Js.Math_ceil (inject_Z (Z.of_nat (String.length hex)) / 2)%Q
       | None => sum
       end)
    0 vin.

Definition accountWitness (stackOf : RawInput.t -> option (list string))
    (vin : list RawInput.t) : Witness.t :=
  {| Witness.count := witnessCount stackOf vin;
     Witness.size := witnessSize stackOf vin |}.

Definition inputTotal (inputs : list TxInput.t) : Js.number :=
  Js.reduce (fun sum input => (sum + TxInput.amount input)%Q) 0%Q inputs.

Definition outputTotal (outputs : list TxOutput.t) : Js.number :=
  Js.reduce (fun sum output => (sum + TxOutput.amount output)%Q) 0%Q outputs.

(** The fee fallback of the node paths:
<<
    if (fee === 0 && inputs.length > 0 && outputs.length > 0) {
      fee = inputTotal - outputTotal >= 0 ? inputTotal - outputTotal : 0;
    }
>> *)
Definition resolveFee (fee : Js.number) (inputs : list TxInput.t)
    (outputs : list TxOutput.t) : Js.number :=
  if Qeq_bool fee 0 && (0 <? List.length inputs)%nat && (0 <? List.length outputs)%nat
  then
    if Qle_bool 0 (inputTotal inputs - outputTotal outputs)
    then (inputTotal inputs - outputTotal outputs)%Q
    else 0%Q
  else fee.

(** [Number((entry.fee * 1e8).toFixed(0)) || 0]; a missing [fee] makes
    the product NaN, which [|| 0] turns into 0. *)
Definition entryFee (entry : MempoolEntry.t) : Js.number :=
  match MempoolEntry.fee entry with
  | Some f => Js.or0 (Some (toSatoshis f))
  | None => 0%Q
  end.

(** The fee a node path starts from: the mempool entry's, 0 without an
    entry. *)
Definition mempoolFee (entry : option MempoolEntry.t) : Js.number :=
  match entry with
  | Some e => entryFee e
  | None => 0%Q
  end.

Definition scriptTypes (inputs : list TxInput.t) (outputs : list TxOutput.t)
    : list string :=
  Js.defined
    (Js.dedupe (List.map TxInput.scriptType inputs
                ++ List.map TxOutput.scriptType outputs)).

Definition classify (scriptTypes : list string) : string :=
  if Js.includes scriptTypes "p2tr" then "Taproot"
  else if Js.includes scriptTypes "v0_p2wpkh" || Js.includes scriptTypes "v0_p2wsh"
  then "SegWit"
  else if Js.includes scriptTypes "p2pkh" || Js.includes scriptTypes "p2sh"
  then "Legacy"
  else "Unknown".

(** [c && c > 0] on the node's confirmation count. *)
Definition hasConfirmations (c : option Js.number) : bool :=
  match c with
  | Some n => Js.truthy n && Js.gt n 0%Q
  | None => false
  end.

End Normalize.

(** Optional chaining, [x?.f]: absent when [x] is, or when [x] has no [f]. *)
Notation "x ?. f" := (mbind (M:=option) f x) (at level 40, left associativity).

(** ** What a route awaited, and what it answers *)

Module Http.

(** A JSON-RPC reply of the node: the HTTP status was 2xx ([ok]), the
    envelope carries a truthy [error], and [result] when it is truthy. *)
Record RpcReply (A : Type) := {
  ok : bool;
  error : bool;
  result : option A
}.
Arguments ok {A} _.
Arguments error {A} _.
Arguments result {A} _.

(** A reply of the explorer: status and parsed body. *)
Record RestReply (A : Type) := { rest_ok : bool; body : A }.
Arguments rest_ok {A} _.
Arguments body {A} _.

Inductive Response (A : Type) : Type :=
| Json (data : A)            (* 200 with the normalised data *)
| NotFound                   (* the 404 body built by the route *)
| Failed.                    (* an exception reached the outer catch *)
Arguments Json {A} data.
Arguments NotFound {A}.
Arguments Failed {A}.

End Http.

(** ** get-bitcoin-node/route.ts *)

Module BitcoinNode.
Import Normalize.

(** *** Transaction search on a node ([isRpc && nodeUrl]) *)

Definition rpcInput (input : RawInput.t) : TxInput.t :=
  {| TxInput.address :=
       Js.orUndefined
         (RawInput.prevout input ?. Prevout.scriptPubKey ?. ScriptPubKey.address);
     TxInput.amount :=
       match RawInput.prevout input ?. Prevout.value with
       | Some v => if Js.truthy v then toSatoshis v else 0%Q
       | None => 0%Q
       end;
     TxInput.scriptType :=
       Js.orUndefined
         (RawInput.prevout input ?. Prevout.scriptPubKey ?. ScriptPubKey.type) |}.

Definition rpcOutput (output : RawOutput.t) : TxOutput.t :=
  let opReturn :=
    decodeOpReturn (RawOutput.scriptPubKey output ?. ScriptPubKey.type)
                   (RawOutput.scriptPubKey output ?. ScriptPubKey.asm) in
  {| TxOutput.address :=
       Js.orUndefined (RawOutput.scriptPubKey output ?. ScriptPubKey.address);
     TxOutput.amount :=
       Js.or0 (Some (toSatoshis (default 0%Q (RawOutput.value output))));
     TxOutput.scriptType :=
       Js.orUndefined (RawOutput.scriptPubKey output ?. ScriptPubKey.type);
     TxOutput.opReturn := opReturn |}.

Definition source_node : string := "Local Bitcoin Node".

(** Lines 105-230: [mempoolEntry] is [mempoolData.result] when the first
    request succeeded, [tx] is [txData.result]. *)
Definition normalizeRpc (txid : string) (mempoolEntry : option MempoolEntry.t)
    (tx : RawTransaction.t) : TransactionResponse.t :=
  let fee := mempoolFee mempoolEntry in
  let size :=
    match mempoolEntry with
    | Some entry => Js.or0 (MempoolEntry.vsize entry)
    | None => 0%Q
    end in
  let status : string :=
    if hasConfirmations (RawTransaction.confirmations tx) then "confirmed" else "pending" in
  let confirmations := Js.or0 (RawTransaction.confirmations tx) in
  let version := Js.or0 (RawTransaction.version tx) in
  let locktime := Js.or0 (RawTransaction.locktime tx) in
  let blockheight := RawTransaction.blockheight tx in
  let inputs := List.map rpcInput (RawTransaction.vin tx) in
  let outputs := List.map rpcOutput (RawTransaction.vout tx) in
  let witness := accountWitness RawInput.txinwitness (RawTransaction.vin tx) in
  let fee := resolveFee fee inputs outputs in
  let walletType := classify (scriptTypes inputs outputs) in
  {| TransactionResponse.txid := txid;
     TransactionResponse.fee := fee;
     TransactionResponse.size := size;
     TransactionResponse.status := status;
     TransactionResponse.confirmations := confirmations;
     TransactionResponse.version := version;
     TransactionResponse.locktime := locktime;
     TransactionResponse.blockheight := blockheight;
     TransactionResponse.walletType := walletType;
     TransactionResponse.witness := witness;
     TransactionResponse.inputs := inputs;
     TransactionResponse.outputs := outputs;
     TransactionResponse.source := source_node |}.

Definition searchRpc (txid : string)
    (mempoolResponse : Http.RpcReply MempoolEntry.t)
    (txResponse : Http.RpcReply RawTransaction.t)
    : Http.Response TransactionResponse.t :=
  let mempoolEntry :=
    if Http.ok mempoolResponse then Http.result mempoolResponse else None in
  if negb (Http.ok txResponse) then Http.Failed
  else if Http.error txResponse then Http.NotFound
  else match Http.result txResponse with
       | None => Http.NotFound
       | Some tx => Http.Json (normalizeRpc txid mempoolEntry tx)
       end.

(** *** Transaction search on the explorer *)

Definition explorerInput (input : RawInput.t) : TxInput.t :=
  {| TxInput.address :=
       Js.orUndefined
         (Js.orElse (RawInput.prevout input ?. Prevout.scriptpubkey_address)
                    (RawInput.prevout input ?. Prevout.scriptPubKey
                       ?. ScriptPubKey.address));
     TxInput.amount :=
       match RawInput.prevout input ?. Prevout.value with
       | Some v => if Js.truthy v then toSatoshis v else 0%Q
       | None => 0%Q
       end;
     TxInput.scriptType :=
       Js.orUndefined
         (Js.orElse (RawInput.prevout input ?. Prevout.scriptpubkey_type)
                    (RawInput.prevout input ?. Prevout.scriptPubKey
                       ?. ScriptPubKey.type)) |}.

Definition explorerOutput (output : RawOutput.t) : TxOutput.t :=
  let opReturn :=
    decodeOpReturn (RawOutput.scriptpubkey_type output)
                   (RawOutput.scriptpubkey_asm output) in
  {| TxOutput.address :=
       Js.orUndefined
         (Js.orElse (RawOutput.scriptpubkey_address output)
                    (RawOutput.scriptPubKey output ?. ScriptPubKey.address));
     TxOutput.amount :=
       Js.or0 (Some (toSatoshis (default 0%Q (RawOutput.value output))));
     TxOutput.scriptType :=
       Js.orUndefined
         (Js.orElse (RawOutput.scriptpubkey_type output)
                    (RawOutput.scriptPubKey output ?. ScriptPubKey.type));
     TxOutput.opReturn := opReturn |}.

(** [input.witness || input.txinwitness]: an array is truthy even when
    empty. *)
Definition explorerStack (input : RawInput.t) : option (list string) :=
  match RawInput.witness input with
  | Some stack => Some stack
  | None => RawInput.txinwitness input
  end.

(** Lines 250-322. *)
Definition normalizeExplorer (source : string) (data : RawTransaction.t)
    : TransactionResponse.t :=
  let inputs := List.map explorerInput (RawTransaction.vin data) in
  let outputs := List.map explorerOutput (RawTransaction.vout data) in
  let witness := accountWitness explorerStack (RawTransaction.vin data) in
  let walletType := classify (scriptTypes inputs outputs) in
  {| TransactionResponse.txid := RawTransaction.txid data;
     TransactionResponse.fee := Js.or0 (RawTransaction.fee data);
     TransactionResponse.size := Js.or0 (RawTransaction.size data);
     TransactionResponse.status :=
       if default false (Status.confirmed <$> RawTransaction.status data)
       then "confirmed" else "pending";
     TransactionResponse.confirmations :=
       Js.or0 (RawTransaction.status data ?. Status.confirmations);
     TransactionResponse.version := Js.or0 (RawTransaction.version data);
     TransactionResponse.locktime := Js.or0 (RawTransaction.locktime data);
     TransactionResponse.blockheight :=
       RawTransaction.status data ?. Status.block_height;
     TransactionResponse.walletType := walletType;
     TransactionResponse.witness := witness;
     TransactionResponse.inputs := inputs;
     TransactionResponse.outputs := outputs;
     TransactionResponse.source := source |}.

Definition searchExplorer (source : string)
    (response : Http.RestReply RawTransaction.t)
    : Http.Response TransactionResponse.t :=
  if negb (Http.rest_ok response) then Http.NotFound
  else Http.Json (normalizeExplorer source (Http.body response)).

(** *** Mempool statistics (no [txid]), lines 354-370 *)

Definition summarizeRpc (source : string) (mempoolInfo : MempoolInfo.t)
    : MempoolStats.t :=
  {| MempoolStats.count := Js.or0 (MempoolInfo.size mempoolInfo);
     MempoolStats.total_fee := 0%Q;
     MempoolStats.vsize := Js.or0 (MempoolInfo.bytes mempoolInfo);
     MempoolStats.source := source |}.

Definition summarizeExplorer (source : string) (data : ExplorerMempool.t)
    : MempoolStats.t :=
  {| MempoolStats.count := Js.or0 (ExplorerMempool.count data);
     MempoolStats.total_fee := Js.or0 (ExplorerMempool.total_fee data);
     MempoolStats.vsize := Js.or0 (ExplorerMempool.vsize data);
     MempoolStats.source := source |}.

(** The statistics branch on a node: a failed request or a reply without
    [result] throws. *)
Definition statsRpc (source : string) (response : Http.RpcReply MempoolInfo.t)
    : Http.Response MempoolStats.t :=
  if negb (Http.ok response) then Http.Failed
  else match Http.result response with
       | None => Http.Failed
       | Some mempoolInfo => Http.Json (summarizeRpc source mempoolInfo)
       end.

End BitcoinNode.

(** ** get-mempool-txs/route.ts *)

Module MempoolTxs.
Import Normalize.

(** *** Recent transactions of a node, lines 128-210 *)

Definition rpcInput (input : RawInput.t) : TxInput.t :=
  {| TxInput.address :=
       Js.orUndefined
         (RawInput.prevout input ?. Prevout.scriptPubKey ?. ScriptPubKey.address);
     TxInput.amount :=
       match RawInput.prevout input ?. Prevout.value with
       | Some v => if Js.truthy v then toSatoshis v else 0%Q
       | None => 0%Q
       end;
     TxInput.scriptType :=
       Js.orUndefined
         (RawInput.prevout input ?. Prevout.scriptPubKey ?. ScriptPubKey.type) |}.

Definition rpcOutput (output : RawOutput.t) : TxOutput.t :=
  let opReturn :=
    decodeOpReturn (RawOutput.scriptPubKey output ?. ScriptPubKey.type)
                   (RawOutput.scriptPubKey output ?. ScriptPubKey.asm) in
  {| TxOutput.address :=
       Js.orUndefined (RawOutput.scriptPubKey output ?. ScriptPubKey.address);
     TxOutput.amount :=
       match RawOutput.value output with
       | Some v => toSatoshis v
       | None => 0%Q
       end;
     TxOutput.scriptType :=
       Js.orUndefined (RawOutput.scriptPubKey output ?. ScriptPubKey.type);
     TxOutput.opReturn := opReturn |}.

(** [entry] is [mempoolData.result[txid]]. *)
Definition normalizeRpc (source txid : string) (entry : option MempoolEntry.t)
    (tx : RawTransaction.t) : TransactionResponse.t :=
  let inputs := List.map rpcInput (RawTransaction.vin tx) in
  let outputs := List.map rpcOutput (RawTransaction.vout tx) in
  let witness := accountWitness RawInput.txinwitness (RawTransaction.vin tx) in
  let fee := mempoolFee entry in
  let fee := resolveFee fee inputs outputs in
  let walletType := classify (scriptTypes inputs outputs) in
  let blockheight :=
    if hasConfirmations (RawTransaction.confirmations tx)
    then RawTransaction.status tx ?. Status.block_height
    else None in
  {| TransactionResponse.txid := txid;
     TransactionResponse.fee := fee;
     TransactionResponse.size := Js.or0 (RawTransaction.size tx);
     TransactionResponse.status :=
       if hasConfirmations (RawTransaction.confirmations tx)
       then "confirmed" else "pending";
     TransactionResponse.confirmations := Js.or0 (RawTransaction.confirmations tx);
     TransactionResponse.version := Js.or0 (RawTransaction.version tx);
     TransactionResponse.locktime := Js.or0 (RawTransaction.locktime tx);
     TransactionResponse.blockheight := blockheight;
     TransactionResponse.walletType := walletType;
     TransactionResponse.witness := witness;
     TransactionResponse.inputs := inputs;
     TransactionResponse.outputs := outputs;
     TransactionResponse.source := source |}.

(** The loop over the first [limit] txids: a transaction whose request
    failed or came back empty is skipped. *)
Definition recentRpc (source : string)
    (fetched : list (string * option MempoolEntry.t * Http.RpcReply RawTransaction.t))
    : list TransactionResponse.t :=
  omap
    (fun '(txid, entry, txResponse) =>
       if negb (Http.ok txResponse) then None
       else if Http.error txResponse then None
       else normalizeRpc source txid entry <$> Http.result txResponse)
    fetched.

(** *** Recent transactions of the explorer, lines 229-299 *)

Definition explorerInput (input : RawInput.t) : TxInput.t :=
  {| TxInput.address :=
       Js.orUndefined (RawInput.prevout input ?. Prevout.scriptpubkey_address);
     TxInput.amount := Js.or0 (RawInput.prevout input ?. Prevout.value);
     TxInput.scriptType :=
       Js.orUndefined (RawInput.prevout input ?. Prevout.scriptpubkey_type) |}.

Definition explorerOutput (output : RawOutput.t) : TxOutput.t :=
  let opReturn :=
    decodeOpReturn (RawOutput.scriptpubkey_type output)
                   (RawOutput.scriptpubkey_asm output) in
  {| TxOutput.address := Js.orUndefined (RawOutput.scriptpubkey_address output);
     TxOutput.amount := Js.or0 (RawOutput.value output);
     TxOutput.scriptType := Js.orUndefined (RawOutput.scriptpubkey_type output);
     TxOutput.opReturn := opReturn |}.

Definition normalizeExplorer (source : string) (tx : RawTransaction.t)
    : TransactionResponse.t :=
  let inputs := List.map explorerInput (RawTransaction.vin tx) in
  let outputs := List.map explorerOutput (RawTransaction.vout tx) in
  let witness := accountWitness RawInput.witness (RawTransaction.vin tx) in
  let walletType := classify (scriptTypes inputs outputs) in
  let confirmed := default false (Status.confirmed <$> RawTransaction.status tx) in
  {| TransactionResponse.txid := RawTransaction.txid tx;
     TransactionResponse.fee := Js.or0 (RawTransaction.fee tx);
     TransactionResponse.size := Js.or0 (RawTransaction.size tx);
     TransactionResponse.status := if confirmed then "confirmed" else "pending";
     TransactionResponse.confirmations := if confirmed then 1%Q else 0%Q;
     TransactionResponse.version := Js.or0 (RawTransaction.version tx);
     TransactionResponse.locktime := Js.or0 (RawTransaction.locktime tx);
     TransactionResponse.blockheight :=
       RawTransaction.status tx ?. Status.block_height;
     TransactionResponse.walletType := walletType;
     TransactionResponse.witness := witness;
     TransactionResponse.inputs := inputs;
     TransactionResponse.outputs := outputs;
     TransactionResponse.source := source |}.

Definition recentExplorer (source : string) (data : list RawTransaction.t)
    : list TransactionResponse.t :=
  List.map (normalizeExplorer source) data.

End MempoolTxs.

(** ** The records the routes can answer with *)

(** A record of one of the two node paths, with the mempool entry its fee
    started from. *)
Inductive node_normalized : option MempoolEntry.t -> TransactionResponse.t -> Prop :=
| node_search (txid : string) (entry : option MempoolEntry.t) (tx : RawTransaction.t) :
    node_normalized entry (BitcoinNode.normalizeRpc txid entry tx)
| node_recent (source txid : string) (entry : option MempoolEntry.t)
    (tx : RawTransaction.t) :
    node_normalized entry (MempoolTxs.normalizeRpc source txid entry tx).

(** A record of one of the two explorer paths, with the payload it was
    made from. *)
Inductive explorer_normalized : RawTransaction.t -> TransactionResponse.t -> Prop :=
| explorer_search (source : string) (data : RawTransaction.t) :
    explorer_normalized data (BitcoinNode.normalizeExplorer source data)
| explorer_recent (source : string) (tx : RawTransaction.t) :
    explorer_normalized tx (MempoolTxs.normalizeExplorer source tx).

(** Any record of either route. *)
Inductive normalized (r : TransactionResponse.t) : Prop :=
| from_node entry : node_normalized entry r -> normalized r
| from_explorer data : explorer_normalized data r -> normalized r.

(** An output of a record, with the disassembly its path read. *)
Inductive decoded_output : option string -> TxOutput.t -> Prop :=
| node_search_output (o : RawOutput.t) :
    decoded_output (RawOutput.scriptPubKey o ?. ScriptPubKey.asm)
                   (BitcoinNode.rpcOutput o)
| explorer_search_output (o : RawOutput.t) :
    decoded_output (RawOutput.scriptpubkey_asm o) (BitcoinNode.explorerOutput o)
| node_recent_output (o : RawOutput.t) :
    decoded_output (RawOutput.scriptPubKey o ?. ScriptPubKey.asm)
                   (MempoolTxs.rpcOutput o)
| explorer_recent_output (o : RawOutput.t) :
    decoded_output (RawOutput.scriptpubkey_asm o) (MempoolTxs.explorerOutput o).

(** A tag is seen by the classifier exactly when some input or output of
    the record carries it. *)
Definition carries (inputs : list TxInput.t) (outputs : list TxOutput.t)
    (tag : string) : Prop :=
  In (Some tag) (List.map TxInput.scriptType inputs
                 ++ List.map TxOutput.scriptType outputs).

(** ** Sums and sizes the statements are written with *)

Definition Zsum (l : list Z) : Z := fold_right Z.add 0 l.

Definition Qsum (l : list Q) : Q := fold_right Qplus 0%Q l.

(** Hex digits of one witness item, and of a whole stack. *)
Definition hexLength (item : string) : Z := Z.of_nat (String.length item).

Definition stackHexLength (stack : list string) : Z := Zsum (List.map hexLength stack).

(** ceil(n / 2) on integers. *)
Definition halfUp (n : Z) : Z := (n + 1) / 2.

(** Bytes of the witness data with an input's hex strings taken
    together: the sum over the inputs of ceil(L / 2), L the hex digits of
    the input's whole stack. *)
Definition bytesPerInput (stackOf : RawInput.t -> option (list string))
    (vin : list RawInput.t) : Z :=
  Zsum (List.map (fun input => halfUp (stackHexLength (default [] (stackOf input)))) vin).

(** Bytes of the witness data as the specification words them: the sum
    over all stack elements of ceil(element hex length / 2). *)
Definition bytesPerItem (stackOf : RawInput.t -> option (list string))
    (vin : list RawInput.t) : Z :=
  Zsum (List.map
          (fun input => Zsum (List.map (fun item => halfUp (hexLength item))
                                       (default [] (stackOf input))))
          vin).

(** Items of the witness data. *)
Definition itemsTotal (stackOf : RawInput.t -> option (list string))
    (vin : list RawInput.t) : Z :=
  Zsum (List.map (fun input => Z.of_nat (List.length (default [] (stackOf input)))) vin).

(** The specification's [decodeHex] accepts a token with an even number
    of characters, all hex digits; any other token is malformed. *)
Definition wellFormedHex (s : string) : bool :=
  Nat.even (String.length s)
  && forallb (fun c => bool_decide (is_Some (Buffer.unhex c))) (list_ascii_of_string s).

(** The specification splits a disassembly "on whitespace": the tokens
    when any of space, tab, line feed, vertical tab, form feed and carriage
    return separates them. *)
Definition isWhitespace (c : ascii) : bool :=
  let n := N_of_ascii c in
  (N.eqb n 32 || (N.leb 9 n && N.leb n 13))%bool.

Fixpoint whitespaceTokens (s : string) : list string :=
  match s with
  | EmptyString => [EmptyString]
  | String c rest =>
      if isWhitespace c then EmptyString :: whitespaceTokens rest
      else match whitespaceTokens rest with
           | part :: parts => String c part :: parts
           | [] => [String c EmptyString]
           end
  end.

(** The tokens that are not empty: what is left of a text between runs
    of white space. *)
Definition whitespaceWords (s : string) : list string :=
  List.filter (fun token => negb (String.eqb token EmptyString)) (whitespaceTokens s).

(** "OP_RETURN", a space and a tab. *)
Definition tabbedDisassembly : string := "OP_RETURN " +:+ String "009" EmptyString.

(** ** Sample payloads *)

Module Samples.

Definition txid : string :=
  "4a5e1e4baab89f3a32518a88c31bc87f618f76673e2cc77ab2127b7afdeda33b".

(** An input as the node reports it, spending [btc] from a [type]
    output. *)
Definition nodeInput (type : string) (btc : Q) (txinwitness : option (list string))
    : RawInput.t :=
  {| RawInput.prevout :=
       Some {| Prevout.scriptPubKey :=
                 Some {| ScriptPubKey.address := None;
                         ScriptPubKey.type := Some type;
                         ScriptPubKey.asm := None |};
               Prevout.scriptpubkey_address := None;
               Prevout.scriptpubkey_type := None;
               Prevout.value := Some btc |};
     RawInput.txinwitness := txinwitness;
     RawInput.witness := None |}.

(** An output as the node reports it. *)
Definition nodeOutput (type : string) (asm : option string) (btc : Q) : RawOutput.t :=
  {| RawOutput.scriptPubKey :=
       Some {| ScriptPubKey.address := None;
               ScriptPubKey.type := Some type;
               ScriptPubKey.asm := asm |};
     RawOutput.scriptpubkey_address := None;
     RawOutput.scriptpubkey_type := None;
     RawOutput.scriptpubkey_asm := None;
     RawOutput.value := Some btc |}.

(** An output as the explorer reports it, in satoshis. *)
Definition explorerOutput (type : string) (asm : option string) (sats : Q)
    : RawOutput.t :=
  {| RawOutput.scriptPubKey := None;
     RawOutput.scriptpubkey_address := None;
     RawOutput.scriptpubkey_type := Some type;
     RawOutput.scriptpubkey_asm := asm;
     RawOutput.value := Some sats |}.

(** An input carrying nothing but a witness stack in [txinwitness]. *)
Definition withStack (stack : list string) : RawInput.t :=
  {| RawInput.prevout := None;
     RawInput.txinwitness := Some stack;
     RawInput.witness := None |}.

Definition transaction (vin : list RawInput.t) (vout : list RawOutput.t)
    (status : option Status.t) : RawTransaction.t :=
  {| RawTransaction.txid := txid;
     RawTransaction.fee := None;
     RawTransaction.size := None;
     RawTransaction.vin := vin;
     RawTransaction.vout := vout;
     RawTransaction.confirmations := None;
     RawTransaction.version := Some 2%Q;
     RawTransaction.locktime := None;
     RawTransaction.blockheight := None;
     RawTransaction.status := status |}.

(** 500 satoshis in, 700 satoshis out, no mempool entry. *)
Definition underfunded : RawTransaction.t :=
  transaction [nodeInput "p2pkh" (5 # 1000000) None]
              [nodeOutput "p2tr" None (7 # 1000000)]
              None.

(** What the explorer answers for a mined transaction: [status] has no
    [confirmations]. *)
Definition mined : RawTransaction.t :=
  transaction [] []
    (Some {| Status.confirmed := true;
             Status.block_height := Some 800000%Q;
             Status.confirmations := None |}).

(** An unconfirmed transaction whose [status] still names a block. *)
Definition pendingWithHeight : RawTransaction.t :=
  transaction [] []
    (Some {| Status.confirmed := false;
             Status.block_height := Some 850000%Q;
             Status.confirmations := None |}).

(** An unconfirmed transaction whose [status] carries a depth. *)
Definition pendingWithDepth : RawTransaction.t :=
  transaction [] []
    (Some {| Status.confirmed := false;
             Status.block_height := None;
             Status.confirmations := Some 2%Q |}).

(** A transaction with one null-data output whose payload is not hex. *)
Definition scribbled : RawTransaction.t :=
  transaction [nodeInput "p2pkh" (5 # 1000000) None]
              [nodeOutput "nulldata" (Some "OP_RETURN zz") 0]
              None.

(** The node's reply to [getrawtransaction] carrying [tx]. *)
Definition found (tx : RawTransaction.t) : Http.RpcReply RawTransaction.t :=
  {| Http.ok := true; Http.error := false; Http.result := Some tx |}.

(** A failed [getmempoolentry]: the transaction is not in the mempool. *)
Definition noEntry : Http.RpcReply MempoolEntry.t :=
  {| Http.ok := false; Http.error := true; Http.result := None |}.

End Samples.

(** ** Further measures and samples *)

(** All hex digits of the witness data. *)
Definition hexDigitsTotal (stackOf : RawInput.t -> option (list string))
    (vin : list RawInput.t) : Z :=
  Zsum (List.map (fun input => stackHexLength (default [] (stackOf input))) vin).

Module MoreSamples.

(** A mempool entry with a fee of 1000 satoshis. *)
Definition paidEntry : MempoolEntry.t :=
  {| MempoolEntry.fee := Some (1 # 100000); MempoolEntry.vsize := Some 141%Q |}.

(** A transaction the node reports with three confirmations. *)
Definition buried : RawTransaction.t :=
  {| RawTransaction.txid := Samples.txid;
     RawTransaction.fee := None;
     RawTransaction.size := Some 225%Q;
     RawTransaction.vin := [Samples.nodeInput "v0_p2wpkh" (1 # 1000) (Some ["3044"; "02ab"])];
     RawTransaction.vout := [Samples.nodeOutput "v0_p2wpkh" None (9 # 10000)];
     RawTransaction.confirmations := Some 3%Q;
     RawTransaction.version := Some 2%Q;
     RawTransaction.locktime := None;
     RawTransaction.blockheight := None;
     RawTransaction.status := None |}.

(** An input as the explorer reports it, in satoshis. *)
Definition explorerInput (type : string) (sats : Q) (witness : option (list string))
    : RawInput.t :=
  {| RawInput.prevout :=
       Some {| Prevout.scriptPubKey := None;
               Prevout.scriptpubkey_address := None;
               Prevout.scriptpubkey_type := Some type;
               Prevout.value := Some sats |};
     RawInput.txinwitness := None;
     RawInput.witness := witness |}.

(** A confirmed transaction whose payload carries the explorer's status
    beside the node's confirmation count. *)
Definition buriedWithHeight : RawTransaction.t :=
  {| RawTransaction.txid := Samples.txid;
     RawTransaction.fee := None;
     RawTransaction.size := Some 225%Q;
     RawTransaction.vin := [];
     RawTransaction.vout := [];
     RawTransaction.confirmations := Some 3%Q;
     RawTransaction.version := Some 2%Q;
     RawTransaction.locktime := None;
     RawTransaction.blockheight := None;
     RawTransaction.status :=
       Some {| Status.confirmed := true;
               Status.block_height := Some 800000%Q;
               Status.confirmations := None |} |}.

(** A reply of the node that failed. *)
Definition unavailable : Http.RpcReply RawTransaction.t :=
  {| Http.ok := false; Http.error := false; Http.result := None |}.

End MoreSamples.

(** ** Text and its hex form *)

(** The code unit of a character. *)
Definition codeOf (c : ascii) : Z := Z.of_N (N_of_ascii c).

(** A text of printable ASCII characters only (0x20 to 0x7E). *)
Definition printableText (s : string) : bool :=
  forallb (fun c => Buffer.printable (codeOf c)) (list_ascii_of_string s).

(** The lower-case hex digit of a value below 16. *)
Definition hexDigit (d : Z) : ascii :=
  ascii_of_N (Z.to_N (if d <? 10 then 48 + d else 87 + d)).

(** The hex form of a text, two digits per character: what a wallet
    writes after OP_RETURN to embed the text. *)
Fixpoint hexEncode (s : string) : string :=
  match s with
  | EmptyString => EmptyString
  | String c rest =>
      String (hexDigit (codeOf c / 16))
        (String (hexDigit (codeOf c mod 16)) (hexEncode rest))
  end.

(** No character of the string is [sep]. *)
Definition free_of (sep : ascii) (s : string) : Prop :=
  Forall (fun c => c <> sep) (list_ascii_of_string s).

(** ** More of JavaScript: text, integers in text, slices *)

Module JsText.

(** White space and line terminators among the 8-bit characters. *)
Definition isWhiteSpace (c : ascii) : bool :=
  let n := codeOf c in
  (n =? 32) || ((9 <=? n) && (n <=? 13)) || (n =? 160).

Fixpoint trimStart (s : string) : string :=
  match s with
  | EmptyString => EmptyString
  | String c rest => if isWhiteSpace c then trimStart rest else s
  end.

Fixpoint trimEnd (s : string) : string :=
  match s with
  | EmptyString => EmptyString
  | String c rest =>
      match trimEnd rest with
      | EmptyString => if isWhiteSpace c then EmptyString else String c EmptyString
      | kept => String c kept
      end
  end.

(** [String.prototype.trim] *)
Definition trim (s : string) : string := trimEnd (trimStart s).

(** [String.prototype.includes] *)
Fixpoint includes (needle hay : string) : bool :=
  String.prefix needle hay
  || match hay with
     | EmptyString => false
     | String _ rest => includes needle rest
     end.

Fixpoint drop (n : nat) (s : string) : string :=
  match n, s with
  | S m, String _ rest => drop m rest
  | _, _ => s
  end.

(** [String.prototype.replace] with a string pattern: the first
    occurrence only. *)
Fixpoint replace (pattern replacement s : string) : string :=
  if String.prefix pattern s then replacement +:+ drop (String.length pattern) s
  else match s with
       | EmptyString => EmptyString
       | String c rest => String c (replace pattern replacement rest)
       end.

(** The value of a digit in a radix up to 16. *)
Definition digitValue (radix : Z) (c : ascii) : option Z :=
  match Buffer.unhex c with
  | Some d => if d <? radix then Some d else None
  | None => None
  end.

(** The number read from the longest prefix of digits. *)
Fixpoint digitsValue (radix : Z) (s : string) (acc : Z) : Z :=
  match s with
  | EmptyString => acc
  | String c rest =>
      match digitValue radix c with
      | Some d => digitsValue radix rest (acc * radix + d)
      | None => acc
      end
  end.

Definition startsWithDigit (radix : Z) (s : string) : bool :=
  match s with
  | EmptyString => false
  | String c _ => bool_decide (is_Some (digitValue radix c))
  end.

(** The sign of the text, and the text after it. *)
Definition signed (s : string) : Z * string :=
  match s with
  | String c rest =>
      if Ascii.eqb c "-" then (-1, rest)
      else if Ascii.eqb c "+" then (1, rest)
      else (1, s)
  | EmptyString => (1, s)
  end.

Definition readDigits (radix : Z) (sign : Z) (s : string) : option Z :=
  if startsWithDigit radix s then Some (sign * digitsValue radix s 0) else None.

(** [parseInt(s)]: leading white space is skipped, a sign is read, "0x"
    or "0X" switches to radix 16, and what follows the digits is
    ignored; [None] is NaN. *)
Definition parseInt (s : string) : option Z :=
  let '(sign, s) := signed (trimStart s) in
  if String.prefix "0x" s || String.prefix "0X" s then readDigits 16 sign (drop 2 s)
  else readDigits 10 sign s.

(** [parseInt(s, 10)] *)
Definition parseInt10 (s : string) : option Z :=
  let '(sign, s) := signed (trimStart s) in
  readDigits 10 sign s.

(** The text of a natural number, as a template literal prints it. *)
Definition toString (n : nat) : string := NilEmpty.string_of_uint (Nat.to_uint n).

(** [Array.prototype.slice(0, end)]: NaN counts as 0, a negative end is
    taken from the end of the array. *)
Definition slice0 {A : Type} (end_ : option Z) (l : list A) : list A :=
  match end_ with
  | None => []
  | Some e =>
      if e <? 0 then take (Z.to_nat (Z.of_nat (List.length l) + e)) l
      else take (Z.to_nat e) l
  end.

End JsText.

(** ** The outer catch of both routes *)

Module Caught.

(** What reaches the catch. *)
Inductive thrown : Type :=
| ErrorObject (message : string)
| NotAnError.

(** The [status] of the error body: missing, NaN or a number. *)
Inductive status : Type :=
| Undefined
| NaN
| Code (n : Z).

Record ErrorBody := { error : string; source : string; status_ : status }.

(** [status || 500] *)
Definition or500 (s : status) : Z :=
  match s with
  | Code n => if n =? 0 then 500 else n
  | _ => 500
  end.

(** Lines 378-389 of get-bitcoin-node and 303-314 of get-mempool-txs: the
    body and the status handed to [NextResponse.json]. *)
Definition respond (source : string) (err : thrown) : ErrorBody * Z :=
  let errorMessage :=
    match err with
    | ErrorObject message => message
    | NotAnError => "An error occurred"%string
    end in
  let status :=
    match err with
    | ErrorObject _ =>
        if JsText.includes "HTTP" errorMessage then
          match JsText.parseInt
                  (JsText.trim
                     (JsText.replace "HTTP" ""
                        (default EmptyString (Js.split ":" errorMessage !! 0%nat))))
          with
          | Some n => Code n
          | None => NaN
          end
        else Undefined
    | NotAnError => Undefined
    end in
  ({| error := errorMessage; source := source; status_ := status |}, or500 status).

(** The statuses [NextResponse.json] makes a response with: those from 200
    to 599 that allow a body.  For any other status the constructor of the
    response throws. *)
Definition accepted (status : Z) : bool :=
  (200 <=? status) && (status <=? 599)
  && negb ((status =? 204) || (status =? 205) || (status =? 304)).

(** What the catch answers; [None] when making the response throws, so
    that the route answers nothing of its own. *)
Definition answer (source : string) (err : thrown) : option (ErrorBody * Z) :=
  let '(body, status) := respond source err in
  if accepted status then Some (body, status) else None.

(** [new Error(`HTTP ${status}: ${what}`)], the form of every error the
    routes throw for a reply that is not ok. *)
Definition httpFailure (status : nat) (what : string) : thrown :=
  ErrorObject ("HTTP " +:+ JsText.toString status +:+ ": " +:+ what).

End Caught.

(** ** The listing of get-mempool-txs on a node *)

Module RecentNode.

(** [parseInt(searchParams.get('limit') || '10', 10)] *)
Definition limitOf (param : option string) : option Z :=
  JsText.parseInt10 (default "10"%string (Js.orUndefined param)).

(** Lines 114-215: the loop over the txids it is given, each fetched with
    [getrawtransaction].  A request that is rejected and a body that is
    not JSON or is null throw inside the [try] of the loop, which goes on
    with the next txid as it does for a reply without a result: such a
    reply is given here as one without a result. *)
Definition visit (source : string)
    (getrawtransaction : string -> Http.RpcReply RawTransaction.t)
    (txids : list (string * MempoolEntry.t)) : list TransactionResponse.t :=
  MempoolTxs.recentRpc source
    (List.map (fun '(txid, entry) => (txid, Some entry, getrawtransaction txid)) txids).

(** Lines 111-218: the entries of [mempoolData.result] in the order of
    its keys, cut at the limit, then visited. *)
Definition recent (source : string) (param : option string)
    (mempool : list (string * MempoolEntry.t))
    (getrawtransaction : string -> Http.RpcReply RawTransaction.t)
    : list TransactionResponse.t :=
  let limit := limitOf param in
  let txids := JsText.slice0 limit mempool in
  visit source getrawtransaction txids.

End RecentNode.

(** ** The transaction search on a node, with every way a request ends *)

Module Wire.

(** What [await response.json()] gives. *)
Inductive body (A : Type) : Type :=
| NotJson                    (* [json()] throws *)
| JsonNull                   (* null: reading a field of it throws *)
| JsonValue (error : bool) (result : option A).
                             (* any other value, with its truthy [error]
                                and its [result] when truthy *)
Arguments NotJson {A}.
Arguments JsonNull {A}.
Arguments JsonValue {A} error result.

(** What [await fetch(...)] gives. *)
Inductive reply (A : Type) : Type :=
| Rejected                   (* [fetch] throws: no connection, or the abort *)
| Answered (ok : bool) (content : body A).
Arguments Rejected {A}.
Arguments Answered {A} ok content.

End Wire.

Module NodeSearch.

(** Lines 115-128: the mempool entry the lookup leaves, when it does not
    throw.  The body is read only if the reply is ok. *)
Definition lookup (mempoolResponse : Wire.reply MempoolEntry.t)
    : option (option MempoolEntry.t) :=
  match mempoolResponse with
  | Wire.Rejected => None
  | Wire.Answered false _ => Some None
  | Wire.Answered true Wire.NotJson => None
  | Wire.Answered true Wire.JsonNull => None
  | Wire.Answered true (Wire.JsonValue _ result) => Some result
  end.

(** Lines 104-236 of get-bitcoin-node.  [BitcoinNode.searchRpc] is this
    route on replies whose bodies are JSON values other than null. *)
Definition search (txid : string)
    (mempoolResponse : Wire.reply MempoolEntry.t)
    (txResponse : Wire.reply RawTransaction.t)
    : Http.Response TransactionResponse.t :=
  match lookup mempoolResponse with
  | None => Http.Failed
  | Some mempoolEntry =>
      match txResponse with
      | Wire.Rejected => Http.Failed
      | Wire.Answered false _ => Http.Failed
      | Wire.Answered true Wire.NotJson => Http.Failed
      | Wire.Answered true Wire.JsonNull => Http.Failed
      | Wire.Answered true (Wire.JsonValue error result) =>
          if error then Http.NotFound
          else match result with
               | None => Http.NotFound
               | Some tx => Http.Json (BitcoinNode.normalizeRpc txid mempoolEntry tx)
               end
      end
  end.

End NodeSearch.

(** ** The history of the page (the [Home] component) *)

Module TxData.
Record t := {
  txid : string;
  fee : Js.number;
  size : Js.number;
  status : string;
  confirmations : Js.number;
  version : Js.number;
  locktime : Js.number;
  blockheight : option Js.number;
  walletType : string;
  witness : Witness.t;
  inputs : list TxInput.t;
  outputs : list TxOutput.t;
  source : string;
  timestamp : Js.number
}.
End TxData.

Module Home.

(** [{ ...tx, timestamp: Date.now() }] *)
Definition stamp (now : Js.number) (tx : TransactionResponse.t) : TxData.t :=
  {| TxData.txid := TransactionResponse.txid tx;
     TxData.fee := TransactionResponse.fee tx;
     TxData.size := TransactionResponse.size tx;
     TxData.status := TransactionResponse.status tx;
     TxData.confirmations := TransactionResponse.confirmations tx;
     TxData.version := TransactionResponse.version tx;
     TxData.locktime := TransactionResponse.locktime tx;
     TxData.blockheight := TransactionResponse.blockheight tx;
     TxData.walletType := TransactionResponse.walletType tx;
     TxData.witness := TransactionResponse.witness tx;
     TxData.inputs := TransactionResponse.inputs tx;
     TxData.outputs := TransactionResponse.outputs tx;
     TxData.source := TransactionResponse.source tx;
     TxData.timestamp := now |}.

(** The update of the history after a poll of the recent transactions;
    [clock i] is what [Date.now()] gives for the i-th transaction:
<<
      const newTxs = data.map((tx) => ({ ...tx, timestamp: Date.now() }));
      setTxHistory((prev) => {
        const existingTxids = new Set(prev.map((tx) => tx.txid));
        const filteredNewTxs = newTxs.filter((tx) => !existingTxids.has(tx.txid));
        return [...filteredNewTxs, ...prev].slice(0, 20);
      });
>> *)
Definition polled (clock : nat -> Js.number) (data : list TransactionResponse.t)
    (prev : list TxData.t) : list TxData.t :=
  let newTxs := imap (fun i tx => stamp (clock i) tx) data in
  let existingTxids : gset string := list_to_set (List.map TxData.txid prev) in
  let filteredNewTxs :=
    List.filter (fun tx => negb (bool_decide (TxData.txid tx ∈ existingTxids))) newTxs in
  JsText.slice0 (Some 20) (filteredNewTxs ++ prev).

(** The update of the history after a search:
<<
      [result, ...prev.filter((tx) => tx.txid !== result.txid)].slice(0, 20)
>> *)
Definition searched (result : TxData.t) (prev : list TxData.t) : list TxData.t :=
  JsText.slice0 (Some 20)
    (result
     :: List.filter
          (fun tx => negb (String.eqb (TxData.txid tx) (TxData.txid result))) prev).

End Home.

Module HistorySamples.

(** An entry the history already holds, searched at time 1000. *)
Definition older : TxData.t :=
  Home.stamp 1000%Q (BitcoinNode.normalizeRpc "aa" None Samples.underfunded).

(** What a poll brings: one transaction the history holds and one it does
    not. *)
Definition brought : list TransactionResponse.t :=
  [MempoolTxs.normalizeRpc "Local Bitcoin Node" "aa" None Samples.underfunded;
   MempoolTxs.normalizeRpc "Local Bitcoin Node" "bb" None MoreSamples.buried].

Definition clock (i : nat) : Js.number := inject_Z (2000 + Z.of_nat i).

End HistorySamples.

Module RouteSamples.

(** A node that cannot give the transaction "aa" and gives every other
    one. *)
Definition flaky (txid : string) : Http.RpcReply RawTransaction.t :=
  if String.eqb txid "aa" then MoreSamples.unavailable
  else Samples.found MoreSamples.buried.

(** A mempool listing of two transactions. *)
Definition listing : list (string * MempoolEntry.t) :=
  [("aa"%string, MoreSamples.paidEntry); ("bb"%string, MoreSamples.paidEntry)].

End RouteSamples.

(** ** Reductions as sums *)

Section Reductions.
Context {A : Type}.

Lemma reduce_add_Z (f : A -> Z) (l : list A) (a : Z) :
  Js.reduce (fun sum x => sum + f x) a l = a + Zsum (List.map f l).
Proof.
  unfold Js.reduce. revert a.
  induction l as [|x l IH]; intros a; simpl.
  - lia.
  - rewrite IH. lia.
Qed.

Lemma reduce_add_Q (f : A -> Q) (l : list A) (a : Q) :
  (Js.reduce (fun sum x => sum + f x) a l == a + Qsum (List.map f l))%Q.
Proof.
  unfold Js.reduce. revert a.
  induction l as [|x l IH]; intros a; simpl.
  - ring.
  - rewrite IH. ring.
Qed.

Lemma Zsum_nonneg (f : A -> Z) (l : list A) :
  (forall x, 0 <= f x) -> 0 <= Zsum (List.map f l).
Proof.
  intros Hf. induction l as [|x l IH]; simpl; [lia|].
  specialize (Hf x). lia.
Qed.

End Reductions.

Lemma Math_ceil_half (n : Z) :
  Js.Math_ceil (inject_Z n / 2)%Q = halfUp n.
Proof.
  unfold Js.Math_ceil, Qceiling, Qfloor, halfUp. simpl.
  change (Z.pos (1 * 2)) with 2. rewrite Z.mul_1_r.
  Z.div_mod_to_equations. lia.
Qed.

Lemma length_append (a b : string) :
  String.length (a +:+ b) = (String.length a + String.length b)%nat.
Proof. induction a as [|c a IH]; simpl; [reflexivity | now rewrite IH]. Qed.

Lemma hexLength_join (stack : list string) :
  hexLength (Js.join stack) = stackHexLength stack.
Proof.
  unfold hexLength, stackHexLength.
  induction stack as [|item stack IH]; simpl; [reflexivity|].
  rewrite length_append, Nat2Z.inj_add, IH. reflexivity.
Qed.

(** ** Witness accounting, in closed form *)

Section WitnessAccounting.
Variable stackOf : RawInput.t -> option (list string).

Lemma witnessCount_itemsTotal (vin : list RawInput.t) :
  Normalize.witnessCount stackOf vin = itemsTotal stackOf vin.
Proof.
  unfold Normalize.witnessCount, itemsTotal.
  rewrite reduce_add_Z, Z.add_0_l. f_equal.
  apply List.map_ext. intros input.
  unfold Normalize.stackLength. now destruct (stackOf input).
Qed.

Lemma witnessSize_from (vin : list RawInput.t) (a : Z) :
  fold_left
    (fun sum input =>
       match stackOf input with
       | Some stack =>
           sum + Js.Math_ceil (inject_Z (Z.of_nat (String.length (Js.join stack))) / 2)%Q
       | None => sum
       end) vin a
  = a + bytesPerInput stackOf vin.
Proof.
  unfold bytesPerInput. revert a.
  induction vin as [|input vin IH]; intros a; simpl; [lia|].
  rewrite IH. destruct (stackOf input) as [stack|].
  - rewrite Math_ceil_half. fold (hexLength (Js.join stack)).
    rewrite hexLength_join.
    change (default [] (Some stack)) with stack. lia.
  - change (halfUp (stackHexLength (default [] None))) with 0. lia.
Qed.

Lemma witnessSize_bytesPerInput (vin : list RawInput.t) :
  Normalize.witnessSize stackOf vin = bytesPerInput stackOf vin.
Proof.
  unfold Normalize.witnessSize, Js.reduce.
  rewrite witnessSize_from. lia.
Qed.

(** Without items there are no hex digits. *)
Lemma no_items_no_bytes (vin : list RawInput.t) :
  itemsTotal stackOf vin = 0 -> bytesPerInput stackOf vin = 0.
Proof.
  unfold itemsTotal, bytesPerInput.
  induction vin as [|input vin IH]; simpl; [reflexivity|].
  intros Hsum.
  pose proof (Zsum_nonneg
                (fun input => Z.of_nat (List.length (default [] (stackOf input))))
                vin (fun input => Nat2Z.is_nonneg _)) as Hrest.
  assert (Hhere : List.length (default [] (stackOf input)) = 0%nat) by lia.
  destruct (default [] (stackOf input)) as [|item stack]; [|discriminate].
  rewrite IH by (simpl in Hsum; lia).
  reflexivity.
Qed.

End WitnessAccounting.

(** When every item has an even number of hex digits, rounding per item
    and rounding per input agree. *)
Lemma even_stack_bytes (stack : list string) :
  Forall (fun item => Z.even (hexLength item) = true) stack ->
  halfUp (stackHexLength stack) = Zsum (List.map (fun item => halfUp (hexLength item)) stack).
Proof.
  unfold stackHexLength.
  induction 1 as [|item stack Heven _ IH]; simpl; [reflexivity|].
  rewrite <- IH. unfold halfUp.
  apply Z.even_spec in Heven. destruct Heven as [k Hk]. rewrite Hk.
  replace (2 * k + Zsum (List.map hexLength stack) + 1)
    with (Zsum (List.map hexLength stack) + 1 + k * 2) by lia.
  rewrite Z.div_add by lia.
  replace (2 * k + 1) with (1 + k * 2) by lia.
  rewrite Z.div_add by lia.
  change (1 / 2) with 0. lia.
Qed.

(** ** Script types: what [includes] sees *)

Lemma dedupe_In {A} `{EqDecision A} (l : list A) (x : A) :
  In x (Js.dedupe l) <-> In x l.
Proof.
  induction l as [|y l IH]; simpl; [tauto|].
  rewrite filter_In, IH. split.
  - intros [->|[Hx _]]; auto.
  - intros [->|Hx]; auto.
    destruct (decide (x = y)) as [->|Hne]; auto.
    right. split; [assumption|].
    now rewrite bool_decide_eq_false_2.
Qed.

Lemma dedupe_NoDup {A} `{EqDecision A} (l : list A) : List.NoDup (Js.dedupe l).
Proof.
  induction l as [|y l IH]; simpl; constructor.
  - rewrite filter_In. intros [_ Hy].
    now rewrite bool_decide_eq_true_2 in Hy.
  - now apply List.NoDup_filter.
Qed.

Lemma defined_In {A} (l : list (option A)) (x : A) :
  In x (Js.defined l) <-> In (Some x) l.
Proof.
  unfold Js.defined.
  induction l as [|[y|] l IH]; simpl; [tauto| |].
  - rewrite IH. split; intros [Heq|Hin]; auto; left; congruence.
  - rewrite IH. split; [auto|]. intros [Heq|Hin]; [discriminate|assumption].
Qed.

Lemma includes_In (l : list string) (x : string) :
  Js.includes l x = true <-> In x l.
Proof.
  unfold Js.includes. rewrite existsb_exists. split.
  - intros [y [Hin Heq]]. apply String.eqb_eq in Heq. now subst.
  - intros Hin. exists x. split; [assumption | apply String.eqb_refl].
Qed.

Lemma includes_carries inputs outputs tag :
  Js.includes (Normalize.scriptTypes inputs outputs) tag = true
  <-> carries inputs outputs tag.
Proof.
  unfold Normalize.scriptTypes, carries.
  now rewrite includes_In, defined_In, dedupe_In.
Qed.

(** Every path classifies the tags of its own inputs and outputs. *)
Lemma normalized_walletType (r : TransactionResponse.t) :
  normalized r ->
  TransactionResponse.walletType r
  = Normalize.classify
      (Normalize.scriptTypes (TransactionResponse.inputs r)
                             (TransactionResponse.outputs r)).
Proof.
  intros [entry Hr|data Hr]; destruct Hr; reflexivity.
Qed.

(** ** Splitting a disassembly *)

(** Two parts or more: the string is the first part, the separator, and
    what the other parts come from. *)
Lemma split_two (sep : ascii) (s t u : string) (rest : list string) :
  Js.split sep s = t :: u :: rest ->
  exists r, s = t +:+ String sep r /\ Js.split sep r = u :: rest.
Proof.
  revert t. induction s as [|c s IH]; intros t; simpl; [discriminate|].
  destruct (Ascii.eqb c sep) eqn:Hc.
  - apply Ascii.eqb_eq in Hc. subst c.
    intros [= <- Hs]. exists s. now split.
  - destruct (Js.split sep s) as [|part parts] eqn:Hs; [discriminate|].
    intros [= <- ->].
    destruct (IH part eq_refl) as [r [-> Hr]].
    exists r. now split.
Qed.

(** ** The fee fallback, as a clamped difference *)

Lemma inputTotal_Qsum (inputs : list TxInput.t) :
  (Normalize.inputTotal inputs == Qsum (List.map TxInput.amount inputs))%Q.
Proof. unfold Normalize.inputTotal. rewrite reduce_add_Q. apply Qplus_0_l. Qed.

Lemma outputTotal_Qsum (outputs : list TxOutput.t) :
  (Normalize.outputTotal outputs == Qsum (List.map TxOutput.amount outputs))%Q.
Proof. unfold Normalize.outputTotal. rewrite reduce_add_Q. apply Qplus_0_l. Qed.

Lemma resolveFee_fallback (fee : Q) inputs outputs :
  (fee == 0)%Q ->
  (0 < List.length inputs)%nat ->
  (0 < List.length outputs)%nat ->
  (Normalize.resolveFee fee inputs outputs
   == Qmax 0 (Qsum (List.map TxInput.amount inputs)
              - Qsum (List.map TxOutput.amount outputs)))%Q.
Proof.
  intros Hfee Hin Hout. unfold Normalize.resolveFee.
  rewrite (Qeq_eq_bool _ _ Hfee).
  apply Nat.ltb_lt in Hin, Hout. rewrite Hin, Hout. cbn [andb].
  rewrite <- inputTotal_Qsum, <- outputTotal_Qsum.
  destruct (Qle_bool 0 _) eqn:Hle.
  - apply Qle_bool_iff in Hle. symmetry. now apply Q.max_r.
  - symmetry. apply Q.max_l.
    apply Qnot_lt_le. intros Hlt. apply Qlt_le_weak in Hlt.
    apply Qle_bool_iff in Hlt. congruence.
Qed.

(** Either node path resolves the fee of its own inputs and outputs. *)
Lemma node_normalized_fee entry r :
  node_normalized entry r ->
  TransactionResponse.fee r
  = Normalize.resolveFee (Normalize.mempoolFee entry)
      (TransactionResponse.inputs r) (TransactionResponse.outputs r).
Proof. intros Hr; destruct Hr; reflexivity. Qed.

(** ** When an OP_RETURN text is emitted *)

Lemma truthyStr_Some (s : option string) :
  Js.truthyStr s = true <-> exists a, s = Some a /\ a <> EmptyString.
Proof.
  unfold Js.truthyStr. rewrite bool_decide_eq_true.
  destruct s as [[|c a]|]; simpl; split.
  - intros [x Hx]. discriminate.
  - intros [a [[= <-] Ha]]. now contradiction Ha.
  - intros _. exists (String c a). now split.
  - intros _. now eexists.
  - intros [x Hx]. discriminate.
  - intros [a [Ha _]]. discriminate.
Qed.

Lemma from_hex_returns (hex : string) :
  Buffer.from_hex hex = Buffer.Returned (Buffer.hexDecode hex).
Proof. reflexivity. Qed.

Lemma decodeOpReturn_Some (type asm : option string) (text : string) :
  Normalize.decodeOpReturn type asm = Some text ->
  type = Some "nulldata"%string
  /\ exists a payload,
       asm = Some a /\ a <> EmptyString
       /\ Js.split " " a !! 0%nat = Some "OP_RETURN"%string
       /\ Js.split " " a !! 1%nat = Some payload
       /\ payload <> EmptyString.
Proof.
  unfold Normalize.decodeOpReturn. intros H.
  destruct (bool_decide (type = _)) eqn:Htype; [|discriminate].
  apply bool_decide_eq_true in Htype.
  destruct (Js.truthyStr asm) eqn:Hasm; [|discriminate].
  apply truthyStr_Some in Hasm as [a [-> Ha]].
  cbn [andb] in H. change (default EmptyString (Some a)) with a in H.
  destruct (bool_decide (Js.split " " a !! 0%nat = _)) eqn:Hfirst; [|discriminate].
  apply bool_decide_eq_true in Hfirst.
  destruct (Js.truthyStr (Js.split " " a !! 1%nat)) eqn:Hsecond; [|discriminate].
  apply truthyStr_Some in Hsecond as [payload [Hpayload Hne]].
  split; [assumption|]. exists a, payload. auto.
Qed.

Lemma decodeOpReturn_emits (a payload : string) :
  a <> EmptyString ->
  Js.split " " a !! 0%nat = Some "OP_RETURN"%string ->
  Js.split " " a !! 1%nat = Some payload ->
  payload <> EmptyString ->
  is_Some (Normalize.decodeOpReturn (Some "nulldata"%string) (Some a)).
Proof.
  intros Ha Hfirst Hsecond Hne. unfold Normalize.decodeOpReturn.
  assert (Js.truthyStr (Some a) = true) as -> by (apply truthyStr_Some; eauto).
  rewrite bool_decide_eq_true_2 by reflexivity. cbn [andb].
  change (default EmptyString (Some a)) with a.
  rewrite (bool_decide_eq_true_2 _ Hfirst).
  assert (Js.truthyStr (Js.split " " a !! 1%nat) = true) as ->
    by (apply truthyStr_Some; eauto).
  cbn [andb]. rewrite from_hex_returns. unfold Js.orElse.
  destruct (Js.orUndefined _); eauto.
Qed.

Lemma decoded_output_opReturn asm out :
  decoded_output asm out ->
  exists type, TxOutput.opReturn out = Normalize.decodeOpReturn type asm.
Proof. intros H; destruct H; eexists; reflexivity. Qed.

(** ** Status and confirmations on the node paths *)

Lemma hasConfirmations_spec (c : option Js.number) :
  Normalize.hasConfirmations c = true <-> (0 < Js.or0 c)%Q.
Proof.
  unfold Normalize.hasConfirmations, Js.or0, Js.gt.
  destruct c as [n|]; [|split; [discriminate | intros H; now apply Qlt_irrefl in H]].
  destruct (Js.truthy n); cbn [andb].
  - rewrite negb_true_iff. split.
    + intros Hle. apply Qnot_le_lt. intros H. apply Qle_bool_iff in H. congruence.
    + intros Hlt. destruct (Qle_bool n 0) eqn:Hle; [|reflexivity].
      apply Qle_bool_iff in Hle. exfalso. now apply (Qlt_not_le _ _ Hlt).
  - split; [discriminate | intros H; now apply Qlt_irrefl in H].
Qed.

(** Both node paths derive the status from the confirmation count they
    report. *)
Lemma node_status_iff_confirmations entry r :
  node_normalized entry r ->
  TransactionResponse.status r = "confirmed"%string
  <-> (0 < TransactionResponse.confirmations r)%Q.
Proof.
  intros Hr; destruct Hr; cbn [TransactionResponse.status
    TransactionResponse.confirmations BitcoinNode.normalizeRpc MempoolTxs.normalizeRpc];
    rewrite <- hasConfirmations_spec;
    destruct (Normalize.hasConfirmations _); split; congruence.
Qed.

(** ** Claims *)

(** C1.  On both node paths, when the fee of the mempool entry resolves to
    0 and the record has inputs and outputs, the fee is the sum of the
    input amounts minus the sum of the output amounts, clamped at zero: it
    is never negative, and 500 in against 700 out gives 0.  The normalisers
    are total functions, so nothing is raised. *)
Theorem C1_fee_fallback_clamped (entry : option MempoolEntry.t)
    (r : TransactionResponse.t) :
  node_normalized entry r ->
  (Normalize.mempoolFee entry == 0)%Q ->
  (0 < List.length (TransactionResponse.inputs r))%nat ->
  (0 < List.length (TransactionResponse.outputs r))%nat ->
  let paidIn := Qsum (List.map TxInput.amount (TransactionResponse.inputs r)) in
  let paidOut := Qsum (List.map TxOutput.amount (TransactionResponse.outputs r)) in
  (TransactionResponse.fee r == Qmax 0 (paidIn - paidOut))%Q
  /\ (0 <= TransactionResponse.fee r)%Q
  /\ (paidIn == 500 -> paidOut == 700 -> TransactionResponse.fee r == 0)%Q.
Proof.
  intros Hr Hfee Hin Hout paidIn paidOut.
  assert (Hclamp : (TransactionResponse.fee r == Qmax 0 (paidIn - paidOut))%Q).
  { rewrite (node_normalized_fee _ _ Hr). now apply resolveFee_fallback. }
  split; [exact Hclamp|]. split.
  - rewrite Hclamp. apply Q.le_max_l.
  - intros H500 H700. rewrite Hclamp, H500, H700. reflexivity.
Qed.

Lemma C1_underfunded_fee_is_zero :
  (TransactionResponse.fee
     (BitcoinNode.normalizeRpc Samples.txid None Samples.underfunded) == 0)%Q.
Proof.
  refine (proj2 (proj2
    (C1_fee_fallback_clamped None
       (BitcoinNode.normalizeRpc Samples.txid None Samples.underfunded)
       (node_search _ _ _) _ _ _)) _ _).
  - reflexivity.
  - simpl. lia.
  - simpl. lia.
  - vm_compute. reflexivity.
  - vm_compute. reflexivity.
Defined.

(** C2.  The wallet type of every record follows the tags its inputs and
    outputs carry, in the order Taproot, SegWit, Legacy: p2tr wins over
    everything, then v0_p2wpkh or v0_p2wsh, then p2pkh or p2sh; a record
    with p2pkh and p2tr is Taproot, and one with none of the five tags, in
    particular with no tag at all, is Unknown. *)
Theorem C2_wallet_type_precedence (r : TransactionResponse.t) :
  normalized r ->
  let tagged :=
    carries (TransactionResponse.inputs r) (TransactionResponse.outputs r) in
  let walletType := TransactionResponse.walletType r in
  (tagged "p2tr" -> walletType = "Taproot")%string
  /\ (~ tagged "p2tr" -> tagged "v0_p2wpkh" \/ tagged "v0_p2wsh" ->
      walletType = "SegWit")%string
  /\ (~ tagged "p2tr" -> ~ tagged "v0_p2wpkh" -> ~ tagged "v0_p2wsh" ->
      tagged "p2pkh" \/ tagged "p2sh" -> walletType = "Legacy")%string
  /\ (~ tagged "p2tr" -> ~ tagged "v0_p2wpkh" -> ~ tagged "v0_p2wsh" ->
      ~ tagged "p2pkh" -> ~ tagged "p2sh" -> walletType = "Unknown")%string
  /\ (tagged "p2pkh" -> tagged "p2tr" -> walletType = "Taproot")%string
  /\ ((forall tag, ~ tagged tag) -> walletType = "Unknown"%string).
Proof.
  intros Hr tagged walletType. subst walletType.
  rewrite (normalized_walletType r Hr). unfold Normalize.classify.
  set (types := Normalize.scriptTypes _ _).
  assert (Hsee : forall tag, Js.includes types tag = true <-> tagged tag)
    by (intros tag; apply includes_carries).
  assert (Hmiss : forall tag, ~ tagged tag -> Js.includes types tag = false).
  { intros tag Hno. destruct (Js.includes types tag) eqn:E; [|reflexivity].
    apply Hsee in E. contradiction. }
  assert (Htaproot : tagged "p2tr"%string ->
            (if Js.includes types "p2tr" then "Taproot"%string
             else if Js.includes types "v0_p2wpkh" || Js.includes types "v0_p2wsh"
             then "SegWit"%string
             else if Js.includes types "p2pkh" || Js.includes types "p2sh"
             then "Legacy"%string else "Unknown"%string) = "Taproot"%string).
  { intros H. apply Hsee in H. now rewrite H. }
  repeat split.
  - exact Htaproot.
  - intros Hno [H|H]; apply Hsee in H; rewrite (Hmiss _ Hno), H;
      [reflexivity | now rewrite orb_true_r].
  - intros H1 H2 H3 [H|H]; apply Hsee in H;
      rewrite (Hmiss _ H1), (Hmiss _ H2), (Hmiss _ H3), H;
      [reflexivity | now rewrite orb_true_r].
  - intros H1 H2 H3 H4 H5.
    now rewrite (Hmiss _ H1), (Hmiss _ H2), (Hmiss _ H3), (Hmiss _ H4), (Hmiss _ H5).
  - intros _. exact Htaproot.
  - intros Hnone. now rewrite !Hmiss by apply Hnone.
Qed.

Lemma C2_legacy_input_taproot_output :
  TransactionResponse.walletType
    (BitcoinNode.normalizeRpc Samples.txid None Samples.underfunded)
  = "Taproot"%string.
Proof.
  refine (proj1
    (C2_wallet_type_precedence
       (BitcoinNode.normalizeRpc Samples.txid None Samples.underfunded)
       (from_node _ None (node_search _ _ _))) _).
  vm_compute. right. left. reflexivity.
Defined.

(** C3.  The explorer branch of the transaction search reads the status
    from [status.confirmed] and the count from [status.confirmations]: for
    the mined transaction of [Samples.mined], whose status carries no
    count, the record is confirmed with 0 confirmations, so that
    "confirmed exactly when confirmations > 0" does not hold there. *)
Example C3_explorer_search_confirmed_with_zero :
  let r := BitcoinNode.normalizeExplorer "Mempool.space" Samples.mined in
  TransactionResponse.status r = "confirmed"%string
  /\ TransactionResponse.confirmations r = 0%Q
  /\ ~ (TransactionResponse.status r = "confirmed"%string
        <-> (0 < TransactionResponse.confirmations r)%Q).
Proof.
  cbv zeta. split; [reflexivity|]. split; [reflexivity|].
  intros [Hto _]. specialize (Hto eq_refl).
  vm_compute in Hto. discriminate.
Qed.

(** The same branch reports a depth for a transaction it calls pending. *)
Example explorer_search_pending_with_depth :
  let r := BitcoinNode.normalizeExplorer "Mempool.space" Samples.pendingWithDepth in
  TransactionResponse.status r = "pending"%string
  /\ TransactionResponse.confirmations r = 2%Q.
Proof. split; reflexivity. Qed.

(** C4.  A payload token that is not well-formed hex does not make
    [Buffer.from] throw: what decodes is the longest prefix of digit
    pairs, and an empty text falls back to the token, not to the
    disassembly.  For "OP_RETURN zz" the output carries "zz"; for
    "OP_RETURN 486" it carries "H"; for "OP_RETURN -1", how the node
    prints a pushed number, it carries "-1".  The route still answers
    with the record. *)
Example C4_malformed_hex_keeps_payload :
  wellFormedHex "zz" = false
  /\ Normalize.decodeOpReturn (Some "nulldata") (Some "OP_RETURN zz")
     = Some "zz"
  /\ TxOutput.opReturn
       (BitcoinNode.rpcOutput (Samples.nodeOutput "nulldata" (Some "OP_RETURN zz") 0))
     = Some "zz"
  /\ TxOutput.opReturn
       (BitcoinNode.rpcOutput (Samples.nodeOutput "nulldata" (Some "OP_RETURN zz") 0))
     <> Some "OP_RETURN zz"
  /\ wellFormedHex "486" = false
  /\ Normalize.decodeOpReturn (Some "nulldata") (Some "OP_RETURN 486")
     = Some "H"
  /\ wellFormedHex "-1" = false
  /\ Normalize.decodeOpReturn (Some "nulldata") (Some "OP_RETURN -1")
     = Some "-1"
  /\ BitcoinNode.searchRpc Samples.txid Samples.noEntry
       (Samples.found Samples.scribbled)
     = Http.Json (BitcoinNode.normalizeRpc Samples.txid None Samples.scribbled)
  /\ List.map TxOutput.opReturn
       (TransactionResponse.outputs
          (BitcoinNode.normalizeRpc Samples.txid None Samples.scribbled))
     = [Some "zz"].
Proof. repeat split; try reflexivity. discriminate. Qed.

(** C5 as stated fails: with the one-digit items "a" and "b" in one stack
    the code counts one byte, rounding per item counts two. *)
Lemma C5_rounding_per_item_differs :
  Witness.size
    (Normalize.accountWitness RawInput.txinwitness [Samples.withStack ["a"; "b"]])
  <> bytesPerItem RawInput.txinwitness [Samples.withStack ["a"; "b"]].
Proof. vm_compute. discriminate. Qed.

(** C5, amended.  Whatever field the stacks are read from, the item count
    is the sum of the stack lengths (no stack counts 0) and the byte size
    is the sum over the inputs of ceil(L / 2), L the hex digits of the
    input's stack taken together; when every item has an even number of
    digits this is the sum over all items of ceil(digits / 2).  The stack
    ["ab"; "cdef"] gives 3 bytes.  The two reductions are total. *)
Theorem C5_witness_accounting (stackOf : RawInput.t -> option (list string))
    (vin : list RawInput.t) :
  let witness := Normalize.accountWitness stackOf vin in
  Witness.count witness = itemsTotal stackOf vin
  /\ Witness.size witness = bytesPerInput stackOf vin
  /\ (Forall (fun input =>
                Forall (fun item => Z.even (hexLength item) = true)
                       (default [] (stackOf input))) vin ->
      Witness.size witness = bytesPerItem stackOf vin)
  /\ Witness.size
       (Normalize.accountWitness RawInput.txinwitness
          [Samples.withStack ["ab"; "cdef"]]) = 3.
Proof.
  cbv zeta. cbn [Normalize.accountWitness Witness.count Witness.size].
  split; [apply witnessCount_itemsTotal|].
  split; [apply witnessSize_bytesPerInput|].
  split; [|reflexivity].
  intros Heven. rewrite witnessSize_bytesPerInput.
  unfold bytesPerInput, bytesPerItem. f_equal.
  induction Heven as [|input vin' Hinput _ IH]; simpl; [reflexivity|].
  now rewrite IH, (even_stack_bytes _ Hinput).
Qed.

(** C6.  Both explorer branches copy [status.block_height] whatever
    [status.confirmed] says: for [Samples.pendingWithHeight] the record is
    pending with 0 confirmations and still has a block height. *)
Example C6_pending_explorer_keeps_block_height :
  let recent := MempoolTxs.normalizeExplorer "Mempool.space" Samples.pendingWithHeight in
  let found := BitcoinNode.normalizeExplorer "Mempool.space" Samples.pendingWithHeight in
  TransactionResponse.status recent = "pending"%string
  /\ TransactionResponse.confirmations recent = 0%Q
  /\ TransactionResponse.blockheight recent = Some 850000%Q
  /\ TransactionResponse.status found = "pending"%string
  /\ TransactionResponse.confirmations found = 0%Q
  /\ TransactionResponse.blockheight found = Some 850000%Q.
Proof. repeat split; reflexivity. Qed.

(** The node branch of the recent transactions does gate the block height
    on the confirmation count. *)
Lemma node_recent_blockheight_gated source txid entry tx :
  TransactionResponse.status (MempoolTxs.normalizeRpc source txid entry tx)
  = "pending"%string ->
  TransactionResponse.blockheight (MempoolTxs.normalizeRpc source txid entry tx) = None.
Proof.
  cbn [MempoolTxs.normalizeRpc TransactionResponse.status
       TransactionResponse.blockheight].
  destruct (Normalize.hasConfirmations _); [discriminate | reflexivity].
Qed.

(** What the explorer branches do for an unconfirmed payload. *)
Lemma explorer_pending data r :
  explorer_normalized data r ->
  Status.confirmed <$> RawTransaction.status data = Some false ->
  TransactionResponse.status r = "pending"%string
  /\ TransactionResponse.blockheight r
     = RawTransaction.status data ?. Status.block_height.
Proof.
  intros Hr Hstatus; destruct Hr;
    cbn [BitcoinNode.normalizeExplorer MempoolTxs.normalizeExplorer
         TransactionResponse.status TransactionResponse.blockheight];
    rewrite Hstatus; split; reflexivity.
Qed.



(** Every record accounts the witness of some stack field of its [vin]. *)
Lemma normalized_witness (r : TransactionResponse.t) :
  normalized r ->
  exists stackOf vin,
    TransactionResponse.witness r = Normalize.accountWitness stackOf vin.
Proof.
  intros [entry Hr|data Hr]; destruct Hr; eexists _, _; reflexivity.
Qed.

(** C8.  In every record, a witness item count of 0 implies a witness byte
    size of 0. *)
Theorem C8_no_witness_items_no_bytes (r : TransactionResponse.t) :
  normalized r ->
  Witness.count (TransactionResponse.witness r) = 0 ->
  Witness.size (TransactionResponse.witness r) = 0.
Proof.
  intros Hr. destruct (normalized_witness r Hr) as [stackOf [vin ->]].
  cbn [Normalize.accountWitness Witness.count Witness.size].
  rewrite witnessCount_itemsTotal, witnessSize_bytesPerInput.
  apply no_items_no_bytes.
Qed.

Lemma C8_underfunded_has_no_witness_bytes :
  Witness.size
    (TransactionResponse.witness
       (BitcoinNode.normalizeRpc Samples.txid None Samples.underfunded)) = 0.
Proof.
  apply (C8_no_witness_items_no_bytes
           (BitcoinNode.normalizeRpc Samples.txid None Samples.underfunded)
           (from_node _ None (node_search _ _ _))).
  reflexivity.
Defined.

(** C9.  The statistics of a node take the count from [size] and the
    virtual size from [bytes], each 0 when absent, and report a total fee
    of 0; the route answers with them whenever the reply has a result. *)
Theorem C9_node_summary (source : string) (mempoolInfo : MempoolInfo.t) :
  let stats := BitcoinNode.summarizeRpc source mempoolInfo in
  (MempoolStats.count stats == default 0 (MempoolInfo.size mempoolInfo))%Q
  /\ (MempoolStats.vsize stats == default 0 (MempoolInfo.bytes mempoolInfo))%Q
  /\ MempoolStats.total_fee stats = 0%Q
  /\ (MempoolInfo.size mempoolInfo = None -> MempoolStats.count stats = 0%Q)
  /\ (MempoolInfo.bytes mempoolInfo = None -> MempoolStats.vsize stats = 0%Q)
  /\ BitcoinNode.statsRpc source
       {| Http.ok := true; Http.error := false; Http.result := Some mempoolInfo |}
     = Http.Json stats.
Proof.
  assert (Hor : forall x : option Q, (Js.or0 x == default 0 x)%Q).
  { intros [v|]; simpl; [|reflexivity]. unfold Js.truthy.
    destruct (Qeq_bool v 0) eqn:E; simpl; [|reflexivity].
    symmetry. now apply Qeq_bool_eq. }
  cbv zeta. cbn [BitcoinNode.summarizeRpc MempoolStats.count MempoolStats.vsize
                 MempoolStats.total_fee].
  repeat split; try apply Hor; intros ->; reflexivity.
Qed.

(** C10.  In the explorer branch of the recent transactions the
    confirmations are 1 when [status.confirmed] is true and 0 otherwise,
    whatever depth the payload may carry; this holds for every element of
    the answer. *)
Theorem C10_explorer_recent_confirmations (source : string) :
  (forall tx,
      let r := MempoolTxs.normalizeExplorer source tx in
      TransactionResponse.confirmations r
      = if bool_decide (Status.confirmed <$> RawTransaction.status tx = Some true)
        then 1%Q else 0%Q)
  /\ (forall data,
         Forall (fun r => TransactionResponse.confirmations r = 1%Q
                          \/ TransactionResponse.confirmations r = 0%Q)
                (MempoolTxs.recentExplorer source data))
  /\ (forall data i r,
         MempoolTxs.recentExplorer source data !! i = Some r ->
         exists tx, data !! i = Some tx
                    /\ r = MempoolTxs.normalizeExplorer source tx).
Proof.
  assert (Hone : forall tx,
             TransactionResponse.confirmations (MempoolTxs.normalizeExplorer source tx)
             = if bool_decide (Status.confirmed <$> RawTransaction.status tx = Some true)
               then 1%Q else 0%Q).
  { intros tx. cbn [MempoolTxs.normalizeExplorer TransactionResponse.confirmations].
    destruct (RawTransaction.status tx) as [[[] ? ?]|]; reflexivity. }
  split; [exact Hone|]. split.
  - intros data. unfold MempoolTxs.recentExplorer.
    apply List.Forall_map, List.Forall_forall. intros tx _. rewrite Hone.
    destruct (bool_decide _); auto.
  - intros data i r. unfold MempoolTxs.recentExplorer.
    rewrite list_lookup_fmap. destruct (data !! i) as [tx|]; [|discriminate].
    intros [= <-]. now exists tx.
Qed.

(** ** Beyond the claims: amounts and fees *)

Lemma toFixed0_comp (x y : Q) : (x == y)%Q -> Js.toFixed0 x = Js.toFixed0 y.
Proof.
  intros Hxy. unfold Js.toFixed0.
  rewrite (Qleb_comp 0%Q 0%Q (Qeq_refl 0%Q) x y Hxy).
  destruct (Qle_bool 0 y); [|f_equal]; apply Qfloor_comp; now rewrite Hxy.
Qed.

Lemma Qfloor_half_up (k : Z) : Qfloor (inject_Z k + (1 # 2)) = k.
Proof.
  unfold Qfloor, inject_Z, Qplus. cbn [Qnum Qden].
  change (Z.pos (1 * 2)) with 2.
  replace (k * 2 + 1 * 1) with (1 + k * 2) by lia.
  rewrite Z.div_add by lia. reflexivity.
Qed.

Lemma toFixed0_inject (k : Z) : Js.toFixed0 (inject_Z k) = k.
Proof.
  unfold Js.toFixed0. destruct (Qle_bool 0 (inject_Z k)).
  - apply Qfloor_half_up.
  - change (- inject_Z k)%Q with (inject_Z (- k)).
    rewrite Qfloor_half_up. lia.
Qed.

Lemma toFixed0_nonneg (x : Q) : (0 <= x)%Q -> 0 <= Js.toFixed0 x.
Proof.
  intros Hx. unfold Js.toFixed0.
  apply Qle_bool_iff in Hx as Hb. rewrite Hb.
  change 0 with (Qfloor 0). apply Qfloor_resp_le. lra.
Qed.

Lemma entryFee_nonneg (e : MempoolEntry.t) :
  (forall f, MempoolEntry.fee e = Some f -> (0 <= f)%Q) ->
  (0 <= Normalize.entryFee e)%Q.
Proof.
  intros Hf. unfold Normalize.entryFee.
  destruct (MempoolEntry.fee e) as [f|]; [|apply Qle_refl].
  specialize (Hf f eq_refl). unfold Js.or0.
  destruct (Js.truthy _); [|apply Qle_refl].
  unfold Normalize.toSatoshis.
  change 0%Q with (inject_Z 0). rewrite <- Zle_Qle.
  apply toFixed0_nonneg. apply Qmult_le_0_compat; [assumption | discriminate].
Qed.

(** X2.  On both node paths the fee of the mempool entry is kept whenever it
    is not 0, or the record has no input, or it has no output: the
    difference of the amounts is only used for a fee of 0 with both
    lists filled. *)
Theorem node_fee_kept (entry : option MempoolEntry.t) (r : TransactionResponse.t) :
  node_normalized entry r ->
  (~ (Normalize.mempoolFee entry == 0)%Q
   \/ TransactionResponse.inputs r = []
   \/ TransactionResponse.outputs r = []) ->
  TransactionResponse.fee r = Normalize.mempoolFee entry.
Proof.
  intros Hr Hcase. rewrite (node_normalized_fee _ _ Hr).
  unfold Normalize.resolveFee.
  destruct Hcase as [Hfee|[->| ->]].
  - destruct (Qeq_bool _ 0) eqn:E; [|reflexivity].
    apply Qeq_bool_eq in E. contradiction.
  - cbn. now rewrite andb_false_r.
  - cbn. now rewrite andb_false_r.
Qed.

Lemma node_fee_kept_sample :
  TransactionResponse.fee
    (BitcoinNode.normalizeRpc Samples.txid (Some MoreSamples.paidEntry)
       Samples.underfunded)
  = Normalize.mempoolFee (Some MoreSamples.paidEntry).
Proof.
  apply (node_fee_kept (Some MoreSamples.paidEntry) _ (node_search _ _ _)).
  left. vm_compute. discriminate.
Defined.

(** X3.  On both node paths the fee is never negative when the mempool
    entry carries no fee or a fee that is not negative. *)
Theorem node_fee_nonnegative (entry : option MempoolEntry.t)
    (r : TransactionResponse.t) :
  node_normalized entry r ->
  (forall e f, entry = Some e -> MempoolEntry.fee e = Some f -> (0 <= f)%Q) ->
  (0 <= TransactionResponse.fee r)%Q.
Proof.
  intros Hr Hentry. rewrite (node_normalized_fee _ _ Hr).
  unfold Normalize.resolveFee.
  destruct (_ && _ && _).
  - destruct (Qle_bool 0 _) eqn:E; [now apply Qle_bool_iff in E | apply Qle_refl].
  - unfold Normalize.mempoolFee. destruct entry as [e|]; [|apply Qle_refl].
    apply entryFee_nonneg. intros f. now apply Hentry.
Qed.

Lemma node_fee_nonnegative_sample :
  (0 <= TransactionResponse.fee
          (MempoolTxs.normalizeRpc "Local Bitcoin Node" Samples.txid
             (Some MoreSamples.paidEntry) Samples.underfunded))%Q.
Proof.
  apply (node_fee_nonnegative (Some MoreSamples.paidEntry) _ (node_recent _ _ _ _)).
  intros e f [= <-] [= <-]. vm_compute. discriminate.
Defined.

Lemma truthy_inject_false (k : Z) : Js.truthy (inject_Z k) = false -> k = 0.
Proof.
  unfold Js.truthy. rewrite negb_false_iff. intros H.
  apply Qeq_bool_eq in H. unfold Qeq in H. cbn in H. lia.
Qed.

Lemma or0_Some (x : Q) : (Js.or0 (Some x) == x)%Q.
Proof.
  unfold Js.or0, Js.truthy.
  destruct (Qeq_bool x 0) eqn:E; cbn; [|reflexivity].
  symmetry. now apply Qeq_bool_eq.
Qed.

(** X4.  The two explorer branches disagree on the unit of an amount: for
    a whole value in the payload, the transaction search reports
    100000000 times what the recent transactions report, for inputs and
    for outputs. *)
Theorem explorer_amount_scale (k : Z) :
  (forall input,
      mbind (M := option) (B := Js.number) Prevout.value (RawInput.prevout input)
      = Some (inject_Z k) ->
      TxInput.amount (BitcoinNode.explorerInput input)
      == 100000000 * TxInput.amount (MempoolTxs.explorerInput input))%Q
  /\ (forall output,
         RawOutput.value output = Some (inject_Z k) ->
         TxOutput.amount (BitcoinNode.explorerOutput output)
         == 100000000 * TxOutput.amount (MempoolTxs.explorerOutput output))%Q.
Proof.
  assert (Hsat : Normalize.toSatoshis (inject_Z k) = inject_Z (k * 100000000)).
  { unfold Normalize.toSatoshis. f_equal.
    rewrite <- (toFixed0_inject (k * 100000000)). apply toFixed0_comp.
    rewrite inject_Z_mult. reflexivity. }
  pose proof or0_Some as Hor.
  split.
  - intros input Hvalue.
    cbn [BitcoinNode.explorerInput MempoolTxs.explorerInput TxInput.amount].
    rewrite Hvalue, Hor.
    destruct (Js.truthy (inject_Z k)) eqn:E.
    + rewrite Hsat, inject_Z_mult. ring.
    + rewrite (truthy_inject_false k E). reflexivity.
  - intros output Hvalue.
    cbn [BitcoinNode.explorerOutput MempoolTxs.explorerOutput TxOutput.amount].
    rewrite Hvalue. change (default 0%Q (Some (inject_Z k))) with (inject_Z k).
    rewrite !Hor, Hsat, inject_Z_mult. ring.
Qed.

(** ** Beyond the claims: witness data *)

Lemma halfUp_bounds (n : Z) : 0 <= n -> n <= 2 * halfUp n <= n + 1.
Proof. intros Hn. unfold halfUp. Z.div_mod_to_equations. lia. Qed.

Lemma halfUp_add_le (a b : Z) : 0 <= a -> 0 <= b -> halfUp (a + b) <= halfUp a + halfUp b.
Proof. intros Ha Hb. unfold halfUp. Z.div_mod_to_equations. lia. Qed.

Lemma stack_bytes_le (stack : list string) :
  0 <= stackHexLength stack
  /\ halfUp (stackHexLength stack)
     <= Zsum (List.map (fun item => halfUp (hexLength item)) stack).
Proof.
  unfold stackHexLength.
  induction stack as [|item stack [IH0 IH]]; simpl; [split; [lia | reflexivity]|].
  assert (0 <= hexLength item) by (unfold hexLength; lia).
  split; [lia|].
  pose proof (halfUp_add_le (hexLength item) (Zsum (List.map hexLength stack))
                ltac:(assumption) IH0).
  lia.
Qed.

(** X5.  Whatever field the stacks are read from, the witness counters are
    never negative, the byte size is at least half the hex digits of the
    witness data and never more than when every item is rounded up on its
    own. *)
Theorem witness_size_bounds (stackOf : RawInput.t -> option (list string))
    (vin : list RawInput.t) :
  let witness := Normalize.accountWitness stackOf vin in
  0 <= Witness.count witness
  /\ 0 <= Witness.size witness
  /\ hexDigitsTotal stackOf vin <= 2 * Witness.size witness
  /\ Witness.size witness <= bytesPerItem stackOf vin.
Proof.
  cbv zeta. cbn [Normalize.accountWitness Witness.count Witness.size].
  rewrite witnessCount_itemsTotal, witnessSize_bytesPerInput.
  unfold itemsTotal, bytesPerInput, hexDigitsTotal, bytesPerItem.
  induction vin as [|input vin IH]; simpl; [lia|].
  destruct (stack_bytes_le (default [] (stackOf input))) as [H0 Hle].
  pose proof (halfUp_bounds _ H0). lia.
Qed.

(** X6.  The witness counters of a list of inputs are the sums of the
    counters of its parts. *)
Theorem witness_additive (stackOf : RawInput.t -> option (list string))
    (front back : list RawInput.t) :
  Witness.count (Normalize.accountWitness stackOf (front ++ back))
  = Witness.count (Normalize.accountWitness stackOf front)
    + Witness.count (Normalize.accountWitness stackOf back)
  /\ Witness.size (Normalize.accountWitness stackOf (front ++ back))
     = Witness.size (Normalize.accountWitness stackOf front)
       + Witness.size (Normalize.accountWitness stackOf back).
Proof.
  cbn [Normalize.accountWitness Witness.count Witness.size].
  rewrite !witnessCount_itemsTotal, !witnessSize_bytesPerInput.
  unfold itemsTotal, bytesPerInput.
  induction front as [|input front [IHc IHs]]; simpl; [split; reflexivity|].
  rewrite IHc, IHs. lia.
Qed.

Lemma accountWitness_ext (stackOf stackOf' : RawInput.t -> option (list string))
    (vin : list RawInput.t) :
  Forall (fun input => stackOf input = stackOf' input) vin ->
  Normalize.accountWitness stackOf vin = Normalize.accountWitness stackOf' vin.
Proof.
  intros Hsame. unfold Normalize.accountWitness.
  rewrite !witnessCount_itemsTotal, !witnessSize_bytesPerInput.
  unfold itemsTotal, bytesPerInput.
  induction Hsame as [|input vin Hinput _ IH]; [reflexivity|].
  injection IH as IHc IHs. simpl. now rewrite Hinput, IHc, IHs.
Qed.

(** X7.  The transaction search on the explorer reads [witness] before
    [txinwitness]: on inputs that all carry [witness] it counts what the
    recent transactions of the explorer count, on inputs that carry none
    it counts what the node paths count. *)
Theorem explorer_search_witness_field (vin : list RawInput.t) :
  (Forall (fun input => is_Some (RawInput.witness input)) vin ->
   Normalize.accountWitness BitcoinNode.explorerStack vin
   = Normalize.accountWitness RawInput.witness vin)
  /\ (Forall (fun input => RawInput.witness input = None) vin ->
      Normalize.accountWitness BitcoinNode.explorerStack vin
      = Normalize.accountWitness RawInput.txinwitness vin).
Proof.
  split; intros Hall; apply accountWitness_ext;
    eapply List.Forall_impl; [|exact Hall| |exact Hall];
    intros input; unfold BitcoinNode.explorerStack.
  - intros [stack ->]. reflexivity.
  - intros ->. reflexivity.
Qed.

(** ** Beyond the claims: classification and status *)

Lemma classify_by_membership (types types' : list string) :
  (forall tag, Js.includes types tag = Js.includes types' tag) ->
  Normalize.classify types = Normalize.classify types'.
Proof. intros Hsame. unfold Normalize.classify. now rewrite !Hsame. Qed.

(** X8.  The wallet type depends only on which tags occur: two records
    whose inputs and outputs carry the same tags, in any order and any
    number of times, have the same wallet type. *)
Theorem wallet_type_by_tag_set (r r' : TransactionResponse.t) :
  normalized r ->
  normalized r' ->
  (forall tag,
      carries (TransactionResponse.inputs r) (TransactionResponse.outputs r) tag
      <-> carries (TransactionResponse.inputs r') (TransactionResponse.outputs r') tag) ->
  TransactionResponse.walletType r = TransactionResponse.walletType r'.
Proof.
  intros Hr Hr' Hsame.
  rewrite (normalized_walletType r Hr), (normalized_walletType r' Hr').
  apply classify_by_membership. intros tag.
  apply eq_true_iff_eq. rewrite !includes_carries. apply Hsame.
Qed.

Lemma wallet_type_by_tag_set_sample :
  TransactionResponse.walletType
    (BitcoinNode.normalizeRpc Samples.txid None MoreSamples.buried)
  = TransactionResponse.walletType
      (MempoolTxs.normalizeRpc "Local Bitcoin Node" Samples.txid
         (Some MoreSamples.paidEntry) MoreSamples.buried).
Proof.
  apply (wallet_type_by_tag_set _ _
           (from_node _ None (node_search _ _ _))
           (from_node _ (Some MoreSamples.paidEntry) (node_recent _ _ _ _))).
  intros tag. reflexivity.
Defined.

(** X9.  Every record has status "confirmed" or "pending" and one of the
    four wallet types. *)
Theorem record_enumerations (r : TransactionResponse.t) :
  normalized r ->
  (TransactionResponse.status r = "confirmed"
   \/ TransactionResponse.status r = "pending")%string
  /\ (TransactionResponse.walletType r = "Taproot"
      \/ TransactionResponse.walletType r = "SegWit"
      \/ TransactionResponse.walletType r = "Legacy"
      \/ TransactionResponse.walletType r = "Unknown")%string.
Proof.
  intros Hr. split.
  - destruct Hr as [entry Hr|data Hr]; destruct Hr;
      cbn [TransactionResponse.status BitcoinNode.normalizeRpc
           MempoolTxs.normalizeRpc BitcoinNode.normalizeExplorer
           MempoolTxs.normalizeExplorer];
      match goal with |- context [if ?b then _ else _] => destruct b end; auto.
  - rewrite (normalized_walletType r Hr). unfold Normalize.classify.
    repeat match goal with |- context [if ?b then _ else _] => destruct b end; auto.
Qed.

Lemma record_enumerations_sample :
  (TransactionResponse.status
     (BitcoinNode.normalizeExplorer "Mempool.space" Samples.mined) = "confirmed"
   \/ TransactionResponse.status
        (BitcoinNode.normalizeExplorer "Mempool.space" Samples.mined) = "pending")%string.
Proof.
  exact (proj1 (record_enumerations _
                  (from_explorer _ Samples.mined (explorer_search _ _)))).
Defined.

(** X10.  On both node paths the status follows the confirmations the
    record reports: "confirmed" exactly when they are above 0, "pending"
    exactly when they are not. *)
Theorem node_status_follows_confirmations (entry : option MempoolEntry.t)
    (r : TransactionResponse.t) :
  node_normalized entry r ->
  (TransactionResponse.status r = "confirmed"%string
   <-> (0 < TransactionResponse.confirmations r)%Q)
  /\ (TransactionResponse.status r = "pending"%string
      <-> (TransactionResponse.confirmations r <= 0)%Q).
Proof.
  intros Hr.
  assert (Hiff : TransactionResponse.status r = "confirmed"%string
                 <-> (0 < TransactionResponse.confirmations r)%Q).
  { destruct Hr; cbn [TransactionResponse.status TransactionResponse.confirmations
                      BitcoinNode.normalizeRpc MempoolTxs.normalizeRpc];
      rewrite <- hasConfirmations_spec;
      destruct (Normalize.hasConfirmations _); split; congruence. }
  split; [exact Hiff|].
  assert (Hcases : TransactionResponse.status r = "confirmed"%string
                   \/ TransactionResponse.status r = "pending"%string).
  { destruct Hr; cbn [TransactionResponse.status BitcoinNode.normalizeRpc
                      MempoolTxs.normalizeRpc];
      destruct (Normalize.hasConfirmations _); auto. }
  split.
  - intros Hpending. apply Qnot_lt_le. intros Hlt.
    apply Hiff in Hlt. congruence.
  - intros Hle. destruct Hcases as [Hconfirmed|Hpending]; [|exact Hpending].
    apply Hiff in Hconfirmed. exfalso. now apply (Qlt_not_le _ _ Hconfirmed).
Qed.

Lemma node_status_follows_confirmations_sample :
  TransactionResponse.status
    (BitcoinNode.normalizeRpc Samples.txid None MoreSamples.buried)
  = "confirmed"%string.
Proof.
  apply (proj1 (node_status_follows_confirmations None _ (node_search _ _ _))).
  vm_compute. reflexivity.
Defined.

(** X11.  In the recent transactions of a node a record has a block height
    only when it is confirmed, and the height is the one of the payload's
    [status]. *)
Theorem node_recent_height_only_when_confirmed (source txid : string)
    (entry : option MempoolEntry.t) (tx : RawTransaction.t) (height : Js.number) :
  TransactionResponse.blockheight (MempoolTxs.normalizeRpc source txid entry tx)
  = Some height ->
  TransactionResponse.status (MempoolTxs.normalizeRpc source txid entry tx)
  = "confirmed"%string
  /\ RawTransaction.status tx ?. Status.block_height = Some height.
Proof.
  cbn [MempoolTxs.normalizeRpc TransactionResponse.status
       TransactionResponse.blockheight].
  destruct (Normalize.hasConfirmations _); [auto | discriminate].
Qed.

Lemma node_recent_height_only_when_confirmed_sample :
  TransactionResponse.status
    (MempoolTxs.normalizeRpc "Local Bitcoin Node" Samples.txid None
       MoreSamples.buriedWithHeight)
  = "confirmed"%string
  /\ RawTransaction.status MoreSamples.buriedWithHeight ?. Status.block_height
     = Some 800000%Q.
Proof.
  apply (node_recent_height_only_when_confirmed "Local Bitcoin Node" Samples.txid
           None MoreSamples.buriedWithHeight 800000%Q).
  reflexivity.
Defined.

(** ** Beyond the claims: what the node routes answer *)

Lemma search_searchRpc (txid : string) (mok merror tok terror : bool)
    (mresult : option MempoolEntry.t) (tresult : option RawTransaction.t) :
  NodeSearch.search txid
    (Wire.Answered mok (Wire.JsonValue merror mresult))
    (Wire.Answered tok (Wire.JsonValue terror tresult))
  = BitcoinNode.searchRpc txid
      {| Http.ok := mok; Http.error := merror; Http.result := mresult |}
      {| Http.ok := tok; Http.error := terror; Http.result := tresult |}.
Proof.
  unfold NodeSearch.search, BitcoinNode.searchRpc. cbn.
  destruct mok, tok, terror, tresult; reflexivity.
Qed.

(** X12.  In the transaction search on a node the mempool lookup throws,
    and the search fails, exactly when its request is rejected or its
    reply is ok with a body that is not JSON or is null.  When it does not
    throw it decides nothing but the fee and the size: the search fails,
    finds nothing or finds a record in the same cases, and two records
    found for the same transaction agree on every other field.  After a
    reply that was not ok the size is 0. *)
Theorem search_mempool_lookup_only_fee_and_size (txid : string)
    (mempoolResponse mempoolResponse' : Wire.reply MempoolEntry.t)
    (txResponse : Wire.reply RawTransaction.t) :
  let answer := NodeSearch.search txid mempoolResponse txResponse in
  let answer' := NodeSearch.search txid mempoolResponse' txResponse in
  (NodeSearch.lookup mempoolResponse = None
   <-> mempoolResponse = Wire.Rejected
       \/ mempoolResponse = Wire.Answered true Wire.NotJson
       \/ mempoolResponse = Wire.Answered true Wire.JsonNull)
  /\ (NodeSearch.lookup mempoolResponse = None -> answer = Http.Failed)
  /\ (NodeSearch.lookup mempoolResponse <> None ->
      NodeSearch.lookup mempoolResponse' <> None ->
      (answer = Http.Failed <-> answer' = Http.Failed)
      /\ (answer = Http.NotFound <-> answer' = Http.NotFound)
      /\ (forall r, answer = Http.Json r ->
            exists r',
              answer' = Http.Json r'
              /\ TransactionResponse.txid r = TransactionResponse.txid r'
              /\ TransactionResponse.status r = TransactionResponse.status r'
              /\ TransactionResponse.confirmations r
                 = TransactionResponse.confirmations r'
              /\ TransactionResponse.version r = TransactionResponse.version r'
              /\ TransactionResponse.locktime r = TransactionResponse.locktime r'
              /\ TransactionResponse.blockheight r
                 = TransactionResponse.blockheight r'
              /\ TransactionResponse.walletType r
                 = TransactionResponse.walletType r'
              /\ TransactionResponse.witness r = TransactionResponse.witness r'
              /\ TransactionResponse.inputs r = TransactionResponse.inputs r'
              /\ TransactionResponse.outputs r = TransactionResponse.outputs r'
              /\ TransactionResponse.source r = TransactionResponse.source r'))
  /\ (forall content r,
         mempoolResponse = Wire.Answered false content ->
         answer = Http.Json r ->
         TransactionResponse.size r = 0%Q).
Proof.
  cbv zeta. split; [|split; [|split]].
  - destruct mempoolResponse as [|[] [| |merror mresult]]; cbn; split;
      try discriminate; try tauto;
      intros [H|[H|H]]; discriminate.
  - unfold NodeSearch.search. now intros ->.
  - unfold NodeSearch.search.
    destruct (NodeSearch.lookup mempoolResponse) as [entry|]; [|now intros H].
    destruct (NodeSearch.lookup mempoolResponse') as [entry'|]; [|now intros _ H].
    intros _ _.
    destruct txResponse as [|[] [| |terror [tx|]]]; try destruct terror;
      (split; [|split]); try tauto; try (split; congruence);
      try (intros r; discriminate).
    intros r [= <-]. eexists. split; [reflexivity|].
    repeat split; reflexivity.
  - intros content r ->. unfold NodeSearch.search. cbn [NodeSearch.lookup].
    destruct txResponse as [|[] [| |terror [tx|]]]; try destruct terror;
      try discriminate.
    intros [= <-]. reflexivity.
Qed.

Lemma recentRpc_app (source : string)
    (front back : list (string * option MempoolEntry.t * Http.RpcReply RawTransaction.t)) :
  MempoolTxs.recentRpc source (front ++ back)
  = MempoolTxs.recentRpc source front ++ MempoolTxs.recentRpc source back.
Proof.
  unfold MempoolTxs.recentRpc.
  induction front as [|[[txid entry] reply] front IH]; [reflexivity|].
  cbn [app omap list_omap]. rewrite IH.
  destruct (negb _); [reflexivity|].
  destruct (Http.error reply); [reflexivity|].
  destruct (Http.result reply); reflexivity.
Qed.

(** X14.  The recent transactions of a node are as many as the replies
    that carry a result without error, and each keeps the txid it was
    asked under, in the order of the mempool listing. *)
Theorem recent_answers_in_order (source : string)
    (fetched : list (string * option MempoolEntry.t * Http.RpcReply RawTransaction.t)) :
  let good :=
    List.filter
      (fun '(_, _, reply) =>
         Http.ok reply && negb (Http.error reply)
         && bool_decide (is_Some (Http.result reply)))
      fetched in
  List.map TransactionResponse.txid (MempoolTxs.recentRpc source fetched)
  = List.map (fun '(txid, _, _) => txid) good
  /\ (List.length (MempoolTxs.recentRpc source fetched) <= List.length fetched)%nat.
Proof.
  cbv zeta. unfold MempoolTxs.recentRpc.
  induction fetched as [|[[txid entry] reply] fetched [IH IHlen]]; [split; reflexivity|].
  cbn [omap list_omap List.filter List.length].
  destruct (Http.ok reply); cbn [negb andb].
  - destruct (Http.error reply); cbn [negb andb].
    + split; [exact IH | lia].
    + destruct (Http.result reply) as [tx|]; cbn.
      * split; [now rewrite <- IH | cbn in IHlen; lia].
      * split; [exact IH | cbn in IHlen; lia].
  - split; [exact IH | lia].
Qed.

(** ** Beyond the claims: OP_RETURN texts *)

Lemma codeOf_range (c : ascii) : 0 <= codeOf c < 256.
Proof.
  unfold codeOf. pose proof (N_ascii_bounded c) as H. lia.
Qed.

Lemma ascii_of_codeOf (c : ascii) : ascii_of_N (Z.to_N (codeOf c)) = c.
Proof. unfold codeOf. rewrite N2Z.id. apply ascii_N_embedding. Qed.

Lemma codeOf_ascii (u : Z) : 0 <= u < 256 -> codeOf (ascii_of_N (Z.to_N u)) = u.
Proof.
  intros Hu. unfold codeOf. rewrite N_ascii_embedding by lia. lia.
Qed.

Lemma small_cases (d : Z) :
  0 <= d < 16 ->
  d = 0 \/ d = 1 \/ d = 2 \/ d = 3 \/ d = 4 \/ d = 5 \/ d = 6 \/ d = 7 \/ d = 8
  \/ d = 9 \/ d = 10 \/ d = 11 \/ d = 12 \/ d = 13 \/ d = 14 \/ d = 15.
Proof. lia. Qed.

Lemma unhex_hexDigit (d : Z) :
  0 <= d < 16 -> Buffer.unhex (hexDigit d) = Some d /\ hexDigit d <> " "%char.
Proof.
  intros Hd. destruct (small_cases d Hd) as
    [->|[->|[->|[->|[->|[->|[->|[->|[->|[->|[->|[->|[->|[->|[->| ->]]]]]]]]]]]]]]];
    split; (reflexivity || discriminate).
Qed.

Lemma nibbles (c : ascii) :
  0 <= codeOf c / 16 < 16 /\ 0 <= codeOf c mod 16 < 16
  /\ codeOf c / 16 * 16 + codeOf c mod 16 = codeOf c.
Proof.
  pose proof (codeOf_range c). Z.div_mod_to_equations. lia.
Qed.

Lemma hexDecode_hexEncode (s : string) :
  Buffer.hexDecode (hexEncode s) = List.map codeOf (list_ascii_of_string s).
Proof.
  induction s as [|c s IH]; [reflexivity|].
  destruct (nibbles c) as (Hhi & Hlo & Hsum).
  cbn [hexEncode Buffer.hexDecode list_ascii_of_string List.map].
  rewrite (proj1 (unhex_hexDigit _ Hhi)), (proj1 (unhex_hexDigit _ Hlo)), IH.
  now rewrite Hsum.
Qed.

Lemma hexEncode_free_of_space (s : string) : free_of " " (hexEncode s).
Proof.
  unfold free_of. induction s as [|c s IH]; [constructor|].
  destruct (nibbles c) as (Hhi & Hlo & _).
  cbn [hexEncode list_ascii_of_string].
  repeat constructor; try apply unhex_hexDigit; assumption.
Qed.

Lemma utf8_ascii (bytes : list Z) :
  Forall (fun b => Buffer.printable b = true) bytes ->
  Buffer.stripNonPrintable (Buffer.toString_utf8 bytes) = bytes.
Proof.
  unfold Buffer.toString_utf8.
  induction 1 as [|b bytes Hb _ IH]; [reflexivity|].
  cbn [Buffer.utf8_run Buffer.utf8_step Buffer.utf8_idle Buffer.needed].
  unfold Buffer.printable in Hb. apply andb_true_iff in Hb as [Hlo Hhi].
  unfold Buffer.utf8_lead.
  assert ((b <=? 127) = true) as -> by (apply Z.leb_le; apply Z.leb_le in Hhi; lia).
  cbn [app]. unfold Buffer.stripNonPrintable in *. cbn [List.filter].
  unfold Buffer.printable at 1. rewrite Hlo, Hhi. cbn [andb].
  f_equal. exact IH.
Qed.

Lemma string_of_units_codes (s : string) :
  Buffer.string_of_units (List.map codeOf (list_ascii_of_string s)) = s.
Proof.
  induction s as [|c s IH]; [reflexivity|].
  cbn [list_ascii_of_string List.map Buffer.string_of_units].
  now rewrite ascii_of_codeOf, IH.
Qed.

Lemma split_free (sep : ascii) (s : string) :
  free_of sep s -> Js.split sep s = [s].
Proof.
  unfold free_of. induction s as [|c s IH]; [reflexivity|].
  cbn [list_ascii_of_string Js.split]. intros Hfree.
  apply List.Forall_cons_iff in Hfree as [Hc Hs].
  apply Ascii.eqb_neq in Hc. rewrite Hc, (IH Hs). reflexivity.
Qed.

Lemma split_first (sep : ascii) (t r : string) :
  free_of sep t -> Js.split sep (t +:+ String sep r) = t :: Js.split sep r.
Proof.
  unfold free_of. induction t as [|c t IH]; cbn [list_ascii_of_string].
  - intros _. simpl. now rewrite Ascii.eqb_refl.
  - intros Hfree. apply List.Forall_cons_iff in Hfree as [Hc Ht].
    apply Ascii.eqb_neq in Hc. simpl. now rewrite Hc, (IH Ht).
Qed.

(** The parts of a split hold no separator. *)
Lemma split_parts_free (sep : ascii) (s : string) :
  Forall (free_of sep) (Js.split sep s).
Proof.
  induction s as [|c s IH]; cbn [Js.split].
  - repeat constructor.
  - destruct (Ascii.eqb c sep) eqn:Hc.
    + constructor; [constructor | exact IH].
    + destruct (Js.split sep s) as [|part parts].
      * repeat constructor. now apply Ascii.eqb_neq.
      * apply List.Forall_cons_iff in IH as [Hpart Hparts].
        constructor; [|exact Hparts].
        unfold free_of. cbn [list_ascii_of_string].
        constructor; [now apply Ascii.eqb_neq | exact Hpart].
Qed.

Lemma OP_RETURN_free_of_space : free_of " " "OP_RETURN".
Proof. unfold free_of. cbn. repeat constructor; discriminate. Qed.

Lemma split_OP_RETURN (payload : string) :
  free_of " " payload ->
  Js.split " " ("OP_RETURN " +:+ payload) = ["OP_RETURN"%string; payload].
Proof.
  intros Hfree.
  change ("OP_RETURN " +:+ payload)%string
    with ("OP_RETURN" +:+ String " " payload)%string.
  rewrite (split_first " " "OP_RETURN" payload OP_RETURN_free_of_space).
  now rewrite (split_free " " payload Hfree).
Qed.

(** What the decoder makes of a disassembly whose two first parts are
    known. *)
Lemma decodeOpReturn_parts (a payload : string) (rest : list string) :
  Js.split " " a = "OP_RETURN"%string :: payload :: rest ->
  payload <> EmptyString ->
  Normalize.decodeOpReturn (Some "nulldata"%string) (Some a)
  = Js.orElse
      (Some (Buffer.string_of_units
               (Buffer.stripNonPrintable
                  (Buffer.toString_utf8 (Buffer.hexDecode payload)))))
      (Some payload).
Proof.
  intros Hsplit Hne. unfold Normalize.decodeOpReturn.
  assert (Ha : a <> EmptyString) by (intros ->; discriminate).
  assert (Js.truthyStr (Some a) = true) as -> by (apply truthyStr_Some; eauto).
  rewrite bool_decide_eq_true_2 by reflexivity. cbn [andb].
  change (default EmptyString (Some a)) with a. rewrite Hsplit.
  cbn [lookup list_lookup].
  rewrite bool_decide_eq_true_2 by reflexivity.
  assert (Js.truthyStr (Some payload) = true) as -> by (apply truthyStr_Some; eauto).
  reflexivity.
Qed.

Lemma printableText_Forall (s : string) :
  printableText s = true ->
  Forall (fun b => Buffer.printable b = true) (List.map codeOf (list_ascii_of_string s)).
Proof.
  unfold printableText. rewrite forallb_forall, List.Forall_map, List.Forall_forall.
  auto.
Qed.

Lemma stripped_is_printable (text : list Z) :
  printableText (Buffer.string_of_units (Buffer.stripNonPrintable text)) = true.
Proof.
  unfold printableText, Buffer.stripNonPrintable.
  induction text as [|u text IH]; [reflexivity|].
  cbn [List.filter]. destruct (Buffer.printable u) eqn:Hu; [|exact IH].
  cbn [Buffer.string_of_units list_ascii_of_string forallb].
  rewrite IH, andb_true_r.
  unfold Buffer.printable in Hu. apply andb_true_iff in Hu as [Hlo Hhi].
  apply Z.leb_le in Hlo, Hhi.
  rewrite codeOf_ascii by lia.
  unfold Buffer.printable. apply andb_true_iff. split; now apply Z.leb_le.
Qed.

(** X15.  A text of printable ASCII characters written in hex after
    OP_RETURN comes back as it was. *)
Theorem op_return_round_trip (s : string) :
  s <> EmptyString ->
  printableText s = true ->
  Normalize.decodeOpReturn (Some "nulldata"%string)
    (Some ("OP_RETURN " +:+ hexEncode s)%string)
  = Some s.
Proof.
  intros Hne Hprintable.
  assert (Hhex : hexEncode s <> EmptyString) by (destruct s; [contradiction|discriminate]).
  rewrite (decodeOpReturn_parts _ (hexEncode s) []
             (split_OP_RETURN _ (hexEncode_free_of_space s)) Hhex).
  rewrite hexDecode_hexEncode, (utf8_ascii _ (printableText_Forall _ Hprintable)).
  rewrite string_of_units_codes.
  unfold Js.orElse, Js.orUndefined. destruct s; [contradiction|reflexivity].
Qed.

Lemma op_return_round_trip_sample :
  Normalize.decodeOpReturn (Some "nulldata"%string)
    (Some ("OP_RETURN " +:+ hexEncode "Hello, world")%string)
  = Some "Hello, world"%string.
Proof.
  apply (op_return_round_trip "Hello, world"); [discriminate | reflexivity].
Defined.

(** X16.  An OP_RETURN text is never empty, and it is either made of
    printable ASCII characters only or the payload token itself. *)
Theorem op_return_text_shape (type asm : option string) (text : string) :
  Normalize.decodeOpReturn type asm = Some text ->
  text <> EmptyString
  /\ (printableText text = true
      \/ exists a, asm = Some a /\ Js.split " " a !! 1%nat = Some text).
Proof.
  intros Hdecode.
  destruct (decodeOpReturn_Some _ _ _ Hdecode)
    as (-> & a & payload & -> & _ & H0 & H1 & Hne).
  destruct (Js.split " " a) as [|t [|u rest]] eqn:Hsplit; try discriminate.
  injection H0 as ->. injection H1 as ->.
  rewrite (decodeOpReturn_parts a payload rest Hsplit Hne) in Hdecode.
  unfold Js.orElse, Js.orUndefined in Hdecode.
  destruct (Buffer.string_of_units _) as [|c t] eqn:Htext.
  - injection Hdecode as <-. split; [assumption|].
    right. exists a. split; [reflexivity|]. now rewrite Hsplit.
  - injection Hdecode as <-. split; [discriminate|].
    left. rewrite <- Htext. apply stripped_is_printable.
Qed.

Lemma op_return_text_shape_sample :
  "Hello"%string <> EmptyString
  /\ (printableText "Hello" = true
      \/ exists a, Some "OP_RETURN 48656c6c6f"%string = Some a
                   /\ Js.split " " a !! 1%nat = Some "Hello"%string).
Proof.
  apply (op_return_text_shape (Some "nulldata"%string)
           (Some "OP_RETURN 48656c6c6f"%string) "Hello").
  reflexivity.
Defined.

(** X17.  Only the first token after OP_RETURN is decoded: what follows
    it in the disassembly changes nothing. *)
Theorem op_return_first_payload_only (a payload : string) (rest : list string) :
  Js.split " " a = "OP_RETURN"%string :: payload :: rest ->
  Normalize.decodeOpReturn (Some "nulldata"%string) (Some a)
  = Normalize.decodeOpReturn (Some "nulldata"%string)
      (Some ("OP_RETURN " +:+ payload)%string).
Proof.
  intros Hsplit.
  pose proof (split_parts_free " " a) as Hfree. rewrite Hsplit in Hfree.
  apply List.Forall_cons_iff in Hfree as [_ Hfree].
  apply List.Forall_cons_iff in Hfree as [Hpayload _].
  pose proof (split_OP_RETURN payload Hpayload) as Hshort.
  destruct payload as [|c payload].
  - unfold Normalize.decodeOpReturn.
    assert (Ha : a <> EmptyString) by (intros ->; discriminate).
    assert (Js.truthyStr (Some a) = true) as -> by (apply truthyStr_Some; eauto).
    change (default EmptyString (Some a)) with a. rewrite Hsplit. reflexivity.
  - rewrite (decodeOpReturn_parts a _ rest Hsplit) by discriminate.
    rewrite (decodeOpReturn_parts _ _ [] Hshort) by discriminate.
    reflexivity.
Qed.

Lemma op_return_first_payload_only_sample :
  Normalize.decodeOpReturn (Some "nulldata"%string)
    (Some "OP_RETURN 6869 7468657265"%string)
  = Normalize.decodeOpReturn (Some "nulldata"%string)
      (Some ("OP_RETURN " +:+ "6869")%string).
Proof.
  apply (op_return_first_payload_only "OP_RETURN 6869 7468657265" "6869"
           ["7468657265"%string]).
  reflexivity.
Defined.

(** ** Beyond the claims: numbers in text *)

Lemma digit_cases (c : ascii) :
  48 <= codeOf c <= 57 ->
  c = "0"%char \/ c = "1"%char \/ c = "2"%char \/ c = "3"%char \/ c = "4"%char
  \/ c = "5"%char \/ c = "6"%char \/ c = "7"%char \/ c = "8"%char \/ c = "9"%char.
Proof.
  intros Hc. rewrite <- (ascii_of_codeOf c).
  assert (codeOf c = 48 \/ codeOf c = 49 \/ codeOf c = 50 \/ codeOf c = 51
          \/ codeOf c = 52 \/ codeOf c = 53 \/ codeOf c = 54 \/ codeOf c = 55
          \/ codeOf c = 56 \/ codeOf c = 57) as Hcases by lia.
  repeat (destruct Hcases as [->|Hcases]; [tauto|]).
  rewrite Hcases. tauto.
Qed.

Lemma digit_facts (c : ascii) :
  48 <= codeOf c <= 57 ->
  JsText.digitValue 10 c = Some (codeOf c - 48)
  /\ JsText.isWhiteSpace c = false
  /\ c <> ":"%char /\ c <> "-"%char /\ c <> "+"%char
  /\ c <> "x"%char /\ c <> "X"%char.
Proof.
  intros Hc.
  destruct (digit_cases c Hc) as [->|[->|[->|[->|[->|[->|[->|[->|[->| ->]]]]]]]]];
    repeat split; (reflexivity || discriminate).
Qed.

Lemma uint_digits (d : Decimal.uint) :
  Forall (fun c => 48 <= codeOf c <= 57)
         (list_ascii_of_string (NilEmpty.string_of_uint d)).
Proof.
  induction d; cbn [NilEmpty.string_of_uint list_ascii_of_string];
    constructor; try assumption; vm_compute; split; discriminate.
Qed.

Lemma uint_value (d : Decimal.uint) (acc : Z) :
  0 <= acc ->
  JsText.digitsValue 10 (NilEmpty.string_of_uint d) acc
  = Z.of_nat (Nat.of_uint_acc d (Z.to_nat acc)).
Proof.
  revert acc. induction d as [|d IH|d IH|d IH|d IH|d IH|d IH|d IH|d IH|d IH|d IH];
    intros acc Hacc;
    cbn [NilEmpty.string_of_uint JsText.digitsValue Nat.of_uint_acc];
    [lia|..];
    match goal with
    | |- context [JsText.digitValue 10 ?c] =>
        let v := eval vm_compute in (JsText.digitValue 10 c) in
        change (JsText.digitValue 10 c) with v
    end;
    cbv iota; rewrite IH by lia; rewrite Nat.tail_mul_spec; do 2 f_equal; lia.
Qed.

Lemma toString_nonempty (n : nat) : JsText.toString n <> EmptyString.
Proof.
  unfold JsText.toString. intros Hempty.
  destruct (Nat.to_uint n) eqn:Hn; try discriminate.
  pose proof (Unsigned.of_to n) as Hback. rewrite Hn in Hback.
  cbn in Hback. subst n. discriminate.
Qed.

Lemma toString_digits (n : nat) :
  Forall (fun c => 48 <= codeOf c <= 57) (list_ascii_of_string (JsText.toString n)).
Proof. apply uint_digits. Qed.

Lemma trimEnd_id (s : string) :
  Forall (fun c => JsText.isWhiteSpace c = false) (list_ascii_of_string s) ->
  JsText.trimEnd s = s.
Proof.
  induction s as [|c s IH]; [reflexivity|].
  cbn [list_ascii_of_string JsText.trimEnd]. intros Hs.
  apply List.Forall_cons_iff in Hs as [Hc Hs].
  rewrite (IH Hs), Hc. now destruct s.
Qed.

Lemma trim_digits (s : string) :
  Forall (fun c => 48 <= codeOf c <= 57) (list_ascii_of_string s) ->
  JsText.trimStart s = s /\ JsText.trim (String " " s) = s.
Proof.
  intros Hs.
  assert (Hws : Forall (fun c => JsText.isWhiteSpace c = false) (list_ascii_of_string s)).
  { eapply List.Forall_impl; [|exact Hs]. intros c Hc. apply digit_facts, Hc. }
  assert (Hstart : JsText.trimStart s = s).
  { destruct s as [|c s]; [reflexivity|].
    cbn [list_ascii_of_string] in Hws. apply List.Forall_cons_iff in Hws as [Hc _].
    cbn [JsText.trimStart]. now rewrite Hc. }
  split; [exact Hstart|].
  unfold JsText.trim. cbn [JsText.trimStart].
  change (JsText.isWhiteSpace " ") with true. cbv iota.
  rewrite Hstart. now apply trimEnd_id.
Qed.

Lemma prefix_second (a b c1 c2 : ascii) (rest : string) :
  c2 <> b -> String.prefix (String a (String b EmptyString)) (String c1 (String c2 rest)) = false.
Proof.
  intros Hne. cbn [String.prefix].
  destruct (ascii_dec a c1); [|reflexivity].
  destruct (ascii_dec b c2); [congruence | reflexivity].
Qed.

(** Reading back the text of a natural number. *)
Lemma parse_toString (n : nat) :
  JsText.parseInt (JsText.toString n) = Some (Z.of_nat n)
  /\ JsText.parseInt10 (JsText.toString n) = Some (Z.of_nat n).
Proof.
  pose proof (toString_digits n) as Hdigits.
  pose proof (toString_nonempty n) as Hne.
  pose proof (proj1 (trim_digits _ Hdigits)) as Hstart.
  assert (Hvalue : JsText.digitsValue 10 (JsText.toString n) 0 = Z.of_nat n).
  { unfold JsText.toString. rewrite uint_value by lia.
    change (Z.to_nat 0) with 0%nat.
    change (Nat.of_uint_acc (Nat.to_uint n) 0) with (Nat.of_uint (Nat.to_uint n)).
    now rewrite Unsigned.of_to. }
  unfold JsText.parseInt, JsText.parseInt10. rewrite Hstart.
  destruct (JsText.toString n) as [|c1 s] eqn:Htext; [contradiction|].
  cbn [list_ascii_of_string] in Hdigits.
  apply List.Forall_cons_iff in Hdigits as [Hc1 Hs].
  destruct (digit_facts c1 Hc1) as (Hd1 & _ & _ & Hminus & Hplus & _ & _).
  unfold JsText.signed.
  apply Ascii.eqb_neq in Hminus, Hplus. rewrite Hminus, Hplus.
  assert (Hread : JsText.readDigits 10 1 (String c1 s) = Some (Z.of_nat n)).
  { unfold JsText.readDigits, JsText.startsWithDigit. rewrite Hd1.
    rewrite bool_decide_eq_true_2 by eauto. rewrite Hvalue. f_equal. lia. }
  split; [|exact Hread].
  assert (String.prefix "0x" (String c1 s) = false
          /\ String.prefix "0X" (String c1 s) = false) as [-> ->].
  { destruct s as [|c2 s].
    - cbn [String.prefix]. destruct (ascii_dec "0" c1); split; reflexivity.
    - cbn [list_ascii_of_string] in Hs. apply List.Forall_cons_iff in Hs as [Hc2 _].
      destruct (digit_facts c2 Hc2) as (_ & _ & _ & _ & _ & Hx & HX).
      split; now apply prefix_second. }
  exact Hread.
Qed.

(** ** Beyond the claims: the outer catch *)

Lemma includes_prefix (needle hay : string) :
  String.prefix needle hay = true -> JsText.includes needle hay = true.
Proof. intros H. destruct hay; cbn [JsText.includes]; now rewrite H. Qed.

Lemma http_head_free (digits : string) :
  Forall (fun c => 48 <= codeOf c <= 57) (list_ascii_of_string digits) ->
  free_of ":" ("HTTP " +:+ digits).
Proof.
  intros Hdigits. unfold free_of. cbn.
  repeat (constructor; [discriminate|]).
  eapply List.Forall_impl; [|exact Hdigits].
  intros c Hc. apply digit_facts, Hc.
Qed.

Lemma http_status_read (what : string) (status : nat) :
  JsText.parseInt
    (JsText.trim
       (JsText.replace "HTTP" ""
          (default EmptyString
             (Js.split ":" ("HTTP " +:+ JsText.toString status +:+ ": " +:+ what)
              !! 0%nat))))
  = Some (Z.of_nat status).
Proof.
  pose proof (toString_digits status) as Hdigits.
  change ("HTTP " +:+ JsText.toString status +:+ ": " +:+ what)%string
    with (("HTTP " +:+ JsText.toString status) +:+ String ":" (" " +:+ what))%string.
  rewrite (split_first ":" _ _ (http_head_free _ Hdigits)).
  cbn [lookup list_lookup].
  change (default EmptyString (Some ("HTTP " +:+ JsText.toString status)%string))
    with ("HTTP " +:+ JsText.toString status)%string.
  change (JsText.replace "HTTP" "" ("HTTP " +:+ JsText.toString status))
    with (String " " (JsText.toString status)).
  rewrite (proj2 (trim_digits _ Hdigits)).
  apply parse_toString.
Qed.

Lemma httpFailure_respond (source what : string) (status : nat) :
  Caught.respond source (Caught.httpFailure status what)
  = ({| Caught.error := "HTTP " +:+ JsText.toString status +:+ ": " +:+ what;
        Caught.source := source;
        Caught.status_ := Caught.Code (Z.of_nat status) |},
     Caught.or500 (Caught.Code (Z.of_nat status))).
Proof.
  unfold Caught.respond, Caught.httpFailure.
  rewrite includes_prefix by reflexivity.
  rewrite !http_status_read. reflexivity.
Qed.


(** ** Beyond the claims: the limit of the listing *)

Lemma recentRpc_length (source : string)
    (fetched : list (string * option MempoolEntry.t * Http.RpcReply RawTransaction.t)) :
  (List.length (MempoolTxs.recentRpc source fetched) <= List.length fetched)%nat.
Proof.
  unfold MempoolTxs.recentRpc.
  induction fetched as [|[[txid entry] reply] fetched IH]; [reflexivity|].
  cbn [omap list_omap List.length].
  destruct (negb _); [lia|]. destruct (Http.error reply); [lia|].
  destruct (Http.result reply); cbn; cbn in IH; lia.
Qed.

Lemma slice0_nonneg {A : Type} (n : Z) (l : list A) :
  0 <= n -> JsText.slice0 (Some n) l = take (Z.to_nat n) l.
Proof.
  intros Hn. unfold JsText.slice0.
  now assert ((n <? 0) = false) as -> by (apply Z.ltb_ge; lia).
Qed.

Lemma slice0_negative {A : Type} (n : Z) (kept dropped : list A) :
  n < 0 ->
  Z.of_nat (List.length dropped)
  = Z.min (- n) (Z.of_nat (List.length (kept ++ dropped))) ->
  JsText.slice0 (Some n) (kept ++ dropped) = kept.
Proof.
  intros Hn Hdropped. unfold JsText.slice0.
  assert ((n <? 0) = true) as -> by (apply Z.ltb_lt; lia).
  rewrite length_app in *.
  destruct (Z.min_spec (- n) (Z.of_nat (List.length kept + List.length dropped)))
    as [[Hlt Hmin]|[Hle Hmin]]; rewrite Hmin in Hdropped.
  - replace (Z.to_nat (Z.of_nat (List.length kept + List.length dropped) + n))
      with (List.length kept) by lia.
    apply take_app_length.
  - assert (kept = []) as -> by (destruct kept; [reflexivity | cbn in Hdropped; lia]).
    cbn [app List.length] in *.
    replace (Z.to_nat (Z.of_nat (0 + List.length dropped) + n)) with 0%nat by lia.
    reflexivity.
Qed.

Lemma visit_length (source : string)
    (getrawtransaction : string -> Http.RpcReply RawTransaction.t)
    (txids : list (string * MempoolEntry.t)) :
  (List.length (RecentNode.visit source getrawtransaction txids)
   <= List.length txids)%nat.
Proof.
  unfold RecentNode.visit. etransitivity; [apply recentRpc_length|].
  now rewrite List.length_map.
Qed.

Lemma visit_app (source : string)
    (getrawtransaction : string -> Http.RpcReply RawTransaction.t)
    (front back : list (string * MempoolEntry.t)) :
  RecentNode.visit source getrawtransaction (front ++ back)
  = RecentNode.visit source getrawtransaction front
    ++ RecentNode.visit source getrawtransaction back.
Proof. unfold RecentNode.visit. now rewrite List.map_app, recentRpc_app. Qed.

Lemma visit_failed (source : string)
    (getrawtransaction : string -> Http.RpcReply RawTransaction.t)
    (txid : string) (entry : MempoolEntry.t) (rest : list (string * MempoolEntry.t)) :
  Http.ok (getrawtransaction txid) = false
  \/ Http.error (getrawtransaction txid) = true
  \/ Http.result (getrawtransaction txid) = None ->
  RecentNode.visit source getrawtransaction ((txid, entry) :: rest)
  = RecentNode.visit source getrawtransaction rest.
Proof.
  intros Hfailed. unfold RecentNode.visit, MempoolTxs.recentRpc.
  cbn [List.map omap list_omap].
  destruct Hfailed as [->|[Herror|Hresult]]; cbn [negb]; [reflexivity| |].
  - destruct (negb _); [reflexivity|]. now rewrite Herror.
  - destruct (negb _); [reflexivity|].
    destruct (Http.error _); [reflexivity|]. now rewrite Hresult.
Qed.

(** X20.  The listing of a node visits the first [limit] entries of the
    mempool for a limit that is not negative, the first 10 without a
    limit, none for a limit that is not a number, and for a negative
    limit all entries but that many at the end; it never answers more
    transactions than it visits.  The text of a natural number is read
    as that number. *)
Theorem recent_limit (source : string) (param : option string)
    (mempool : list (string * MempoolEntry.t))
    (getrawtransaction : string -> Http.RpcReply RawTransaction.t) :
  let answer := RecentNode.recent source param mempool getrawtransaction in
  (RecentNode.limitOf param = None -> answer = [])
  /\ (forall n, RecentNode.limitOf param = Some n -> 0 <= n ->
        answer = RecentNode.visit source getrawtransaction (take (Z.to_nat n) mempool)
        /\ Z.of_nat (List.length answer) <= n)
  /\ (forall n, RecentNode.limitOf param = Some n -> n < 0 ->
        (forall kept dropped,
            mempool = kept ++ dropped ->
            Z.of_nat (List.length dropped)
            = Z.min (- n) (Z.of_nat (List.length mempool)) ->
            answer = RecentNode.visit source getrawtransaction kept)
        /\ Z.of_nat (List.length answer)
           <= Z.max 0 (Z.of_nat (List.length mempool) + n))
  /\ (Js.orUndefined param = None ->
      answer = RecentNode.visit source getrawtransaction (take 10 mempool)
      /\ (List.length answer <= 10)%nat)
  /\ (forall n : nat,
         RecentNode.limitOf (Some (JsText.toString n)) = Some (Z.of_nat n)).
Proof.
  cbv zeta. unfold RecentNode.recent.
  pose proof (visit_length source getrawtransaction) as Hlen.
  split; [|split; [|split; [|split]]].
  - intros ->. reflexivity.
  - intros n -> Hn. rewrite slice0_nonneg by assumption.
    split; [reflexivity|].
    specialize (Hlen (take (Z.to_nat n) mempool)). rewrite length_take in Hlen. lia.
  - intros n -> Hn. split.
    + intros kept dropped -> Hdropped. now rewrite slice0_negative.
    + specialize (Hlen (JsText.slice0 (Some n) mempool)).
      unfold JsText.slice0 in *.
      assert ((n <? 0) = true) as Hneg by (apply Z.ltb_lt; lia).
      rewrite Hneg in *. rewrite length_take in Hlen. lia.
  - intros Hparam. unfold RecentNode.limitOf. rewrite Hparam.
    change (JsText.parseInt10 (default "10"%string None)) with (Some 10).
    rewrite slice0_nonneg by lia. change (Z.to_nat 10) with 10%nat.
    split; [reflexivity|].
    specialize (Hlen (take 10 mempool)). rewrite length_take in Hlen. lia.
  - intros n. unfold RecentNode.limitOf.
    pose proof (toString_nonempty n) as Hne.
    assert (Js.orUndefined (Some (JsText.toString n)) = Some (JsText.toString n)) as ->
      by (unfold Js.orUndefined; now destruct (JsText.toString n)).
    apply parse_toString.
Qed.

(** X13.  In the listing of a node a transaction within the limit whose
    request was not ok, or came back with an error or without a result,
    is left out of the answer and still uses up its place: the route
    answers what the loop gives on the other entries among the first
    [limit], which is one entry fewer than it visits when that txid is
    not in the mempool. *)
Theorem recent_failed_takes_a_place (source : string) (param : option string)
    (getrawtransaction : string -> Http.RpcReply RawTransaction.t)
    (front back : list (string * MempoolEntry.t))
    (txid : string) (entry : MempoolEntry.t) (n : Z) :
  RecentNode.limitOf param = Some n ->
  Z.of_nat (List.length front) < n ->
  Http.ok (getrawtransaction txid) = false
  \/ Http.error (getrawtransaction txid) = true
  \/ Http.result (getrawtransaction txid) = None ->
  RecentNode.recent source param (front ++ (txid, entry) :: back) getrawtransaction
  = RecentNode.visit source getrawtransaction
      (front ++ take (Z.to_nat n - 1 - List.length front) back)
  /\ RecentNode.recent source param (front ++ back) getrawtransaction
     = RecentNode.visit source getrawtransaction
         (front ++ take (Z.to_nat n - List.length front) back).
Proof.
  intros Hlimit Hwithin Hfailed. unfold RecentNode.recent. rewrite Hlimit.
  rewrite !slice0_nonneg by lia. rewrite !take_app.
  rewrite (take_ge front) by lia.
  split; [|reflexivity].
  replace (Z.to_nat n - List.length front)%nat
    with (S (Z.to_nat n - 1 - List.length front)) by lia.
  cbn [take]. rewrite !visit_app. f_equal.
  now apply visit_failed.
Qed.

Lemma recent_failed_takes_a_place_sample :
  RecentNode.recent "Local Bitcoin Node" (Some "1"%string)
    ([] ++ ("aa"%string, MoreSamples.paidEntry)
     :: [("bb"%string, MoreSamples.paidEntry)])
    RouteSamples.flaky
  = RecentNode.visit "Local Bitcoin Node" RouteSamples.flaky
      ([] ++ take (Z.to_nat 1 - 1 - List.length (@nil (string * MempoolEntry.t)))
                  [("bb"%string, MoreSamples.paidEntry)])
  /\ RecentNode.recent "Local Bitcoin Node" (Some "1"%string)
       ([] ++ [("bb"%string, MoreSamples.paidEntry)]) RouteSamples.flaky
     = RecentNode.visit "Local Bitcoin Node" RouteSamples.flaky
         ([] ++ take (Z.to_nat 1 - List.length (@nil (string * MempoolEntry.t)))
                     [("bb"%string, MoreSamples.paidEntry)]).
Proof.
  apply (recent_failed_takes_a_place "Local Bitcoin Node" (Some "1"%string)
           RouteSamples.flaky [] [("bb"%string, MoreSamples.paidEntry)]
           "aa" MoreSamples.paidEntry 1).
  - reflexivity.
  - cbn. lia.
  - left. reflexivity.
Defined.

(** With a limit of 1 the listing that starts with a transaction the
    node cannot give answers nothing, where the listing without it answers
    the next transaction. *)
Example listing_cut_before_skipping :
  RecentNode.recent "Local Bitcoin Node" (Some "1"%string)
    RouteSamples.listing RouteSamples.flaky = []
  /\ TransactionResponse.txid
       <$> RecentNode.recent "Local Bitcoin Node" (Some "1"%string)
             (tail RouteSamples.listing) RouteSamples.flaky
     = ["bb"%string].
Proof. split; reflexivity. Qed.

(** ** Beyond the claims: the history of the page *)

Lemma slice0_take {A : Type} (n : nat) (l : list A) :
  JsText.slice0 (Some (Z.of_nat n)) l = take n l.
Proof.
  unfold JsText.slice0.
  assert ((Z.of_nat n <? 0) = false) as -> by (apply Z.ltb_ge; lia).
  now rewrite Nat2Z.id.
Qed.

Lemma take_In {A : Type} (n : nat) (l : list A) (x : A) :
  In x (take n l) -> In x l.
Proof.
  revert n. induction l as [|y l IH]; intros [|n]; cbn; try tauto.
  intros [->|Hin]; [now left | right; eauto].
Qed.

Lemma filter_sublist {A : Type} (f : A -> bool) (l : list A) :
  List.filter f l `sublist_of` l.
Proof.
  induction l as [|x l IH]; cbn [List.filter]; [constructor|].
  destruct (f x); now constructor.
Qed.

Lemma stamped_txids (clock : nat -> Js.number) (data : list TransactionResponse.t) :
  List.map TxData.txid (imap (fun i tx => Home.stamp (clock i) tx) data)
  = List.map TransactionResponse.txid data.
Proof.
  change (List.map TxData.txid) with (fmap (M := list) TxData.txid).
  rewrite fmap_imap.
  change (fun n => TxData.txid ∘ Home.stamp (clock n))
    with (fun _ : nat => TransactionResponse.txid).
  apply (imap_const TransactionResponse.txid).
Qed.

Lemma polled_unfold (clock : nat -> Js.number) (data : list TransactionResponse.t)
    (prev : list TxData.t) :
  Home.polled clock data prev
  = take 20
      (List.filter
         (fun tx => negb (bool_decide
                            (TxData.txid tx
                             ∈ (list_to_set (List.map TxData.txid prev) : gset string))))
         (imap (fun i tx => Home.stamp (clock i) tx) data)
       ++ prev).
Proof. unfold Home.polled. apply (slice0_take 20). Qed.

Lemma searched_unfold (result : TxData.t) (prev : list TxData.t) :
  Home.searched result prev
  = result
    :: take 19
         (List.filter
            (fun tx => negb (String.eqb (TxData.txid tx) (TxData.txid result))) prev).
Proof.
  unfold Home.searched. change (Some 20) with (Some (Z.of_nat 20)).
  rewrite slice0_take. reflexivity.
Qed.

(** X21.  A poll leaves a history without repeated txids without
    repeated txids, when what it brings has none either. *)
Theorem polled_keeps_txids_unique (clock : nat -> Js.number)
    (data : list TransactionResponse.t) (prev : list TxData.t) :
  NoDup (List.map TxData.txid prev) ->
  NoDup (List.map TransactionResponse.txid data) ->
  NoDup (List.map TxData.txid (Home.polled clock data prev)).
Proof.
  intros Hprev Hdata. rewrite polled_unfold.
  eapply sublist_NoDup; [|apply (fmap_sublist TxData.txid), sublist_take].
  change (NoDup (List.map TxData.txid
                   (List.filter
                      (fun tx => negb (bool_decide
                                         (TxData.txid tx
                                          ∈ (list_to_set (List.map TxData.txid prev)
                                             : gset string))))
                      (imap (fun i tx => Home.stamp (clock i) tx) data)
                    ++ prev))).
  rewrite List.map_app. apply NoDup_app. split; [|split].
  - eapply sublist_NoDup;
      [|apply (fmap_sublist TxData.txid), filter_sublist].
    change (NoDup (List.map TxData.txid
                     (imap (fun i tx => Home.stamp (clock i) tx) data))).
    now rewrite stamped_txids.
  - intros txid Hnew Hold.
    apply list_elem_of_In, List.in_map_iff in Hnew as [tx [<- Hin]].
    apply List.filter_In in Hin as [_ Hunknown].
    apply negb_true_iff, bool_decide_eq_false in Hunknown.
    apply Hunknown, elem_of_list_to_set. exact Hold.
  - exact Hprev.
Qed.

Lemma polled_keeps_txids_unique_sample :
  NoDup (List.map TxData.txid
           (Home.polled HistorySamples.clock HistorySamples.brought
              [HistorySamples.older])).
Proof.
  apply polled_keeps_txids_unique.
  - exact (bool_decide_unpack (NoDup ["aa"%string]) I).
  - exact (bool_decide_unpack (NoDup ["aa"%string; "bb"%string]) I).
Defined.

(** X22.  After a poll the history has at most 20 entries, and each of
    them is an entry it had before or a transaction the poll brought
    under a txid the history did not have: a poll never replaces an
    entry. *)
Theorem polled_never_replaces (clock : nat -> Js.number)
    (data : list TransactionResponse.t) (prev : list TxData.t) :
  (List.length (Home.polled clock data prev) <= 20)%nat
  /\ forall tx,
       In tx (Home.polled clock data prev) ->
       In tx prev
       \/ exists i raw,
            data !! i = Some raw
            /\ tx = Home.stamp (clock i) raw
            /\ ~ In (TransactionResponse.txid raw) (List.map TxData.txid prev).
Proof.
  rewrite polled_unfold. split.
  - rewrite length_take. lia.
  - intros tx Hin. apply take_In, List.in_app_or in Hin.
    destruct Hin as [Hnew|Hold]; [|now left].
    right. apply List.filter_In in Hnew as [Hin Hunknown].
    apply list_elem_of_In, elem_of_lookup_imap in Hin as (i & raw & -> & Hraw).
    exists i, raw. split; [exact Hraw|]. split; [reflexivity|].
    apply negb_true_iff, bool_decide_eq_false in Hunknown.
    intros Hknown. apply Hunknown, elem_of_list_to_set, list_elem_of_In.
    exact Hknown.
Qed.

Lemma filter_all {A : Type} (f : A -> bool) (l : list A) :
  Forall (fun x => f x = true) l -> List.filter f l = l.
Proof.
  induction 1 as [|x l Hx _ IH]; cbn [List.filter]; [reflexivity|].
  now rewrite Hx, IH.
Qed.

(** X23.  After a search the history starts with the transaction found,
    holds it once, has at most 20 entries, and the others are entries it
    had before under another txid; recording the same result again
    changes nothing, and txids stay without repetition. *)
Theorem searched_puts_result_first (result : TxData.t) (prev : list TxData.t) :
  Home.searched result prev !! 0%nat = Some result
  /\ (List.length (Home.searched result prev) <= 20)%nat
  /\ (forall tx,
         In tx (Home.searched result prev) ->
         tx = result \/ (In tx prev /\ TxData.txid tx <> TxData.txid result))
  /\ Home.searched result (Home.searched result prev) = Home.searched result prev
  /\ (NoDup (List.map TxData.txid prev) ->
      NoDup (List.map TxData.txid (Home.searched result prev))).
Proof.
  rewrite !searched_unfold.
  set (others :=
         List.filter
           (fun tx => negb (String.eqb (TxData.txid tx) (TxData.txid result))) prev).
  assert (Hothers : forall tx, In tx others ->
            In tx prev /\ TxData.txid tx <> TxData.txid result).
  { intros tx Hin. apply List.filter_In in Hin as [Hin Hne].
    split; [exact Hin|]. now apply negb_true_iff, String.eqb_neq in Hne. }
  assert (Hkept : forall tx, In tx (take 19 others) -> In tx others).
  { intros tx Hin. exact (take_In 19 others tx Hin). }
  split; [reflexivity|]. split; [cbn [List.length]; rewrite length_take; lia|].
  split; [|split].
  - intros tx [<-|Hin]; [now left | right; apply Hothers, Hkept, Hin].
  - f_equal. cbn [List.filter]. rewrite String.eqb_refl. cbn [negb].
    rewrite filter_all, take_idemp; [reflexivity|].
    apply List.Forall_forall. intros tx Hin.
    apply negb_true_iff, String.eqb_neq. apply Hothers, Hkept, Hin.
  - intros Hprev. cbn [List.map]. apply NoDup_cons. split.
    + intros Hin. apply list_elem_of_In, List.in_map_iff in Hin as [tx [Htxid Hin]].
      now apply (Hothers tx (Hkept tx Hin)).
    + eapply sublist_NoDup; [exact Hprev|].
      apply (fmap_sublist TxData.txid).
      etransitivity; [apply sublist_take | apply filter_sublist].
Qed.
